(** * deep_qa: the attention pretrainer and the true/false baseline solver

    A shallow embedding of
    [deep_qa/solvers/pretraining/attention_pretrainer.py] and
    [deep_qa/solvers/no_memory/true_false_solver.py].

    Python objects that are shared and mutated (the trainer, its
    configuration dictionary, its selector layers) are modelled by explicit
    state passing: every method of the pretrainer is a computation over the
    one trainer object it holds a reference to.  A raised exception stops
    the computation and leaves the trainer as mutated so far. *)

From Stdlib Require Import ZArith QArith.
From stdpp Require Import base option list gmap strings.

Set Warnings "-register-all".

Local Open Scope Z_scope.
Local Open Scope string_scope.

(** ** Python values and exceptions *)

(** The values a configuration dictionary holds ([Dict[str, Any]]). *)
Inductive value :=
| VNone
| VBool (b : bool)
| VInt (z : Z)
| VStr (s : string).

Inductive exn :=
| ConfigurationError (msg : string)
| IndexError
| KeyError (key : string)
| TypeError
| IOError (msg : string).

(** ** Keras layers

    A layer object is either a base transformation or a [TimeDistributed]
    wrapper whose [.layer] attribute is the wrapped layer.  Any layer object
    can carry a [hard_selection] attribute ([None] here: attribute not set). *)
Inductive layer :=
| Layer (name : string) (hard : option value)
| TimeDistributed (inner : layer) (name : string) (hard : option value).

Definition hard_selection (l : layer) : option value :=
  match l with
  | Layer _ h => h
  | TimeDistributed _ _ h => h
  end.

(** [layer.hard_selection = v] *)
Definition set_hard_selection (v : value) (l : layer) : layer :=
  match l with
  | Layer n _ => Layer n (Some v)
  | TimeDistributed i n _ => TimeDistributed i n (Some v)
  end.

(** [isinstance(l, TimeDistributed)] *)
Definition is_time_distributed (l : layer) : bool :=
  match l with
  | Layer _ _ => false
  | TimeDistributed _ _ _ => true
  end.

(** [while isinstance(l, TimeDistributed): l = l.layer] *)
Fixpoint unwrap (l : layer) : layer :=
  match l with
  | Layer _ _ => l
  | TimeDistributed inner _ _ => unwrap inner
  end.

(** [n] nested wrappers around [l]. *)
Fixpoint wrap (n : nat) (l : layer) : layer :=
  match n with
  | O => l
  | S k => TimeDistributed (wrap k l) "time_distributed" None
  end.

(** ** The trainer object *)

Record trainer := Trainer {
  (** the classes the object is an instance of, most specific first *)
  mro : list string;
  knowledge_selector_params : gmap string value;
  knowledge_selector_layers : gmap Z layer;
  max_sentence_length : Z;
  max_knowledge_length : Z;
  embedding_size : Z;
  (** the word dictionary of the trainer's data indexer *)
  data_indexer : gmap string nat;
  tokenizer : string;
  instance_type : string;
}.

Definition isinstance (t : trainer) (cls : string) : bool :=
  bool_decide (cls ∈ mro t).

Definition set_knowledge_selector_params (f : gmap string value → gmap string value)
    (t : trainer) : trainer :=
  Trainer (mro t) (f (knowledge_selector_params t)) (knowledge_selector_layers t)
          (max_sentence_length t) (max_knowledge_length t) (embedding_size t)
          (data_indexer t) (tokenizer t) (instance_type t).

Definition set_knowledge_selector_layers (f : gmap Z layer → gmap Z layer)
    (t : trainer) : trainer :=
  Trainer (mro t) (knowledge_selector_params t) (f (knowledge_selector_layers t))
          (max_sentence_length t) (max_knowledge_length t) (embedding_size t)
          (data_indexer t) (tokenizer t) (instance_type t).

Definition set_data_indexer (f : gmap string nat → gmap string nat)
    (t : trainer) : trainer :=
  Trainer (mro t) (knowledge_selector_params t) (knowledge_selector_layers t)
          (max_sentence_length t) (max_knowledge_length t) (embedding_size t)
          (f (data_indexer t)) (tokenizer t) (instance_type t).

Definition set_max_sentence_length (n : Z) (t : trainer) : trainer :=
  Trainer (mro t) (knowledge_selector_params t) (knowledge_selector_layers t)
          n (max_knowledge_length t) (embedding_size t)
          (data_indexer t) (tokenizer t) (instance_type t).

(** ** Computations over the shared trainer

    [M A]: run against the trainer, return the trainer as left behind and
    either the exception raised or the result. *)
Definition M (A : Type) : Type := trainer → trainer * (exn + A).

#[global] Instance M_ret : MRet M := λ A a t, (t, inr a).
#[global] Instance M_bind : MBind M := λ A B k m t,
  match m t with
  | (t', inl e) => (t', inl e)
  | (t', inr a) => k a t'
  end.

(** [raise e] *)
Definition raise {A} (e : exn) : M A := λ t, (t, inl e).
(** read an attribute of the trainer *)
Definition gets {A} (f : trainer → A) : M A := λ t, (t, inr (f t)).
(** assign to an attribute (or an item of an attribute) of the trainer *)
Definition modify (f : trainer → trainer) : M unit := λ t, (f t, inr tt).
(** a call that does not touch the trainer but may raise *)
Definition lift {A} (r : exn + A) : M A := λ t, (t, r).

(** ** Collaborators outside the two modules

    The base class [Pretrainer], the dataset readers, the indexed dataset
    and the layer accessors of [MemoryNetworkSolver] are used here through
    their interfaces only. *)

(** Modelled from the spec: a dataset is an ordered sequence of examples;
    the text of an example is the token sequence the tokenizer produced
    for it. *)
Record text_instance := TextInstance {
  instance_index : Z;
  instance_words : list string;
}.

Definition TextDataset := list text_instance.

(** numpy arrays and backend tensors, as nested rows over scalars [A] *)
Inductive ndarray (A : Type) :=
| Scalar (x : A)
| Nd (rows : list (ndarray A)).
Arguments Scalar {A} x.
Arguments Nd {A} rows.

(** What [IndexedInstance.as_training_data()] gives as the input of one
    instance: one array of word indices, or a tuple of such arrays. *)
Inductive instance_input :=
| Single (a : ndarray Z)
| Tuple (fields : list (ndarray Z)).

(** What [_prepare_data] returns as inputs: one array, or a list with one
    array per field. *)
Inductive prepared_inputs :=
| OneArray (a : ndarray Z)
| FieldArrays (arrays : list (ndarray Z)).

(** ** Symbolic computation graphs *)

Inductive tensor :=
| Input (shape : list Z) (dtype : string) (name : string)
| Embedding (x : tensor)
| Apply (l : layer) (x : tensor)
| Merge (inputs : list tensor)
        (mode : ∀ A : Type, list (ndarray A) → option (ndarray A))
        (output_shape : list Z) (name : string)
| Dropout (rate : Q) (x : tensor)
| Dense (units : Z) (activation : string) (name : string) (x : tensor).

Record model := Model {
  input : list tensor;
  output : list tensor;
}.

Class Collaborators := {
  pretrainer_params : Type;
  indexed_dataset : Type;
  (** [Pretrainer.__init__(trainer, params)]: the training files it stores *)
  Pretrainer_init : pretrainer_params → exn + list string;
  (** [TextDataset.read_from_file(filename, instance_type, tokenizer=...)] *)
  read_from_file : string → string → string → exn + TextDataset;
  (** [TextDataset.read_labeled_background_from_file(dataset, filename)] *)
  read_labeled_background_from_file : TextDataset → string → exn + TextDataset;
  (** [dataset.to_indexed_dataset(data_indexer)] *)
  to_indexed_dataset : TextDataset → gmap string nat → exn + indexed_dataset;
  (** [indexed_dataset.pad_instances(max_lengths)] *)
  pad_instances : indexed_dataset → gmap string Z → indexed_dataset;
  (** [indexed_dataset.as_training_data()] *)
  as_training_data : indexed_dataset → list instance_input * list (ndarray Z);
  (** [trainer._get_max_lengths()] *)
  _get_max_lengths : trainer → gmap string Z;
  (** [trainer._get_sentence_encoder()] *)
  _get_sentence_encoder : M layer;
  (** [trainer._get_knowledge_selector(layer_num)] *)
  _get_knowledge_selector : Z → M layer;
  (** compiling and fitting the model on the prepared data *)
  fit : model → prepared_inputs * ndarray Z → M unit;
}.

(** ** AttentionPretrainer *)

Record pretrainer := Pretrainer {
  train_files : list string;
  _old_hard_attention_setting : value;
  name : string;
}.

(** [files[i]] *)
Definition getitem {A} (l : list A) (i : nat) : exn + A :=
  match l !! i with
  | Some x => inr x
  | None => inl IndexError
  end.

(** The rows of Python's [zip] applied to the iterators [its]: a row is
    produced as long as every iterator still has an item. *)
Fixpoint zip_rows {A} (n : nat) (its : list (list A)) : list (list A) :=
  match n with
  | O => []
  | S k =>
      match mapM head its with
      | Some row => row :: zip_rows k (tail <$> its)
      | None => []
      end
  end.

Definition zip_star {A} (its : list (list A)) : list (list A) :=
  match its with
  | [] => []
  | it :: _ => zip_rows (length it) its
  end.

(** Iterating over the input of one instance: the items of a tuple, the
    rows of an array; a 0-d array is not iterable. *)
Definition iter_input (x : instance_input) : exn + list (ndarray Z) :=
  match x with
  | Tuple fields => inr fields
  | Single (Nd rows) => inr rows
  | Single (Scalar _) => inl TypeError
  end.

Fixpoint iter_inputs (xs : list instance_input) : exn + list (list (ndarray Z)) :=
  match xs with
  | [] => inr []
  | x :: xs' =>
      match iter_input x with
      | inl e => inl e
      | inr it =>
          match iter_inputs xs' with
          | inl e => inl e
          | inr its => inr (it :: its)
          end
      end
  end.

(** [isinstance(x, tuple)] *)
Definition is_tuple (x : instance_input) : bool :=
  match x with
  | Tuple _ => true
  | Single _ => false
  end.

(** [numpy.asarray] of one element of a list of instance inputs *)
Definition input_as_array (x : instance_input) : ndarray Z :=
  match x with
  | Single a => a
  | Tuple fields => Nd fields
  end.

(** ** The merge function of [_build_model] *)

(** [K.expand_dims(x, dim=1)] on a batch [x] *)
Definition expand_dims_1 {A} (x : ndarray A) : option (ndarray A) :=
  match x with
  | Nd samples => Some (Nd ((λ s, Nd [s]) <$> samples))
  | Scalar _ => None
  end.

Definition rows_of {A} (x : ndarray A) : option (list (ndarray A)) :=
  match x with
  | Nd rows => Some rows
  | Scalar _ => None
  end.

(** Two batches joined along axis 1, sample by sample; the batch sizes
    have to agree. *)
Fixpoint concatenate_samples {A} (xs ys : list (ndarray A)) : option (list (ndarray A)) :=
  match xs, ys with
  | [], [] => Some []
  | x :: xs', y :: ys' =>
      rx ← rows_of x;
      ry ← rows_of y;
      rest ← concatenate_samples xs' ys';
      Some (Nd (rx ++ ry) :: rest)
  | _, _ => None
  end.

(** [K.concatenate([x, y], axis=1)] *)
Definition concatenate_1 {A} (x y : ndarray A) : option (ndarray A) :=
  xs ← rows_of x;
  ys ← rows_of y;
  Nd <$> concatenate_samples xs ys.

(** [lambda layer_outs: K.concatenate([K.expand_dims(layer_outs[0], dim=1),
    layer_outs[1]], axis=1)] *)
Definition merge_mode (A : Type) (layer_outs : list (ndarray A)) : option (ndarray A) :=
  o0 ← layer_outs !! 0%nat;
  o1 ← layer_outs !! 1%nat;
  e ← expand_dims_1 o0;
  concatenate_1 e o1.

(** Modelled from the spec: [trainer._get_embedded_sentence_input] is the
    trainer's embedding stage, an integer input layer of the given shape
    followed by the trainer's word embedding. *)
Definition _get_embedded_sentence_input (input_shape : list Z) (name_prefix : string)
    : M (tensor * tensor) :=
  let input_layer := Input input_shape "int32" (name_prefix +:+ "_input") in
  mret (input_layer, Embedding input_layer).

(** Modelled from the spec: [DataIndexer.fit_word_dictionary] extends the
    word dictionary with the vocabulary observed in the dataset; a word
    already present keeps its index, a new word takes the next free one. *)
Definition add_word_to_index (word_index : gmap string nat) (word : string)
    : gmap string nat :=
  match word_index !! word with
  | Some _ => word_index
  | None => <[word := size word_index]> word_index
  end.

Definition dataset_words (dataset : TextDataset) : list string :=
  dataset ≫= instance_words.

Definition fit_word_dictionary (dataset : TextDataset) (word_index : gmap string nat)
    : gmap string nat :=
  foldl add_word_to_index word_index (dataset_words dataset).

Section AttentionPretrainer.
Context `{Collaborators}.

Definition __init__ (params : pretrainer_params) : M pretrainer :=
  t ← gets id;
  if negb (isinstance t "MemoryNetworkSolver")
  then raise (ConfigurationError "The AttentionPretrainer needs a subclass of MemoryNetworkSolver")
  else
    files ← lift (Pretrainer_init params);
    old ← gets (λ t, default (VBool false) (knowledge_selector_params t !! "hard_selection"));
    modify (set_knowledge_selector_params <["hard_selection" := VBool false]>);;
    mret (Pretrainer files old "AttentionPretrainer").

Definition on_finished (self : pretrainer) : M unit :=
  modify (set_knowledge_selector_params
            <["hard_selection" := _old_hard_attention_setting self]>);;
  modify (set_knowledge_selector_layers
            (fmap (set_hard_selection (_old_hard_attention_setting self)))).


Definition _load_dataset_from_files (files : list string) : M TextDataset :=
  f0 ← lift (getitem files 0);
  ty ← gets instance_type;
  tok ← gets tokenizer;
  dataset ← lift (read_from_file f0 ty tok);
  f1 ← lift (getitem files 1);
  lift (read_labeled_background_from_file dataset f1).

Definition _prepare_data (dataset : TextDataset) (for_train : bool)
    : M (prepared_inputs * ndarray Z) :=
  indexer ← gets data_indexer;
  indexed ← lift (to_indexed_dataset dataset indexer);
  max_lengths ← gets _get_max_lengths;
  let indexed_dataset := pad_instances indexed max_lengths in
  let '(inputs, labels) := as_training_data indexed_dataset in
  first ← lift (getitem inputs 0);
  inputs ← (if is_tuple first
            then its ← lift (iter_inputs inputs);
                 mret (FieldArrays (Nd <$> zip_star its))
            else mret (OneArray (Nd (input_as_array <$> inputs))));
  mret (inputs, Nd labels).

Definition fit_data_indexer (self : pretrainer) : M unit :=
  dataset ← _load_dataset_from_files (train_files self);
  modify (set_data_indexer (fit_word_dictionary dataset)).

Definition _build_model : M model :=
  sentence_shape ← gets (λ t, [max_sentence_length t]);
  background_shape ← gets (λ t, [max_knowledge_length t; max_sentence_length t]);
  '(sentence_input_layer, sentence_embedding) ←
    _get_embedded_sentence_input sentence_shape "sentence";
  '(background_input_layer, background_embedding) ←
    _get_embedded_sentence_input background_shape "background";
  sentence_encoder ← _get_sentence_encoder;
  let sentence_encoder := unwrap sentence_encoder in
  let background_encoder := TimeDistributed sentence_encoder "background_encoder" None in
  let encoded_sentence := Apply sentence_encoder sentence_embedding in
  let encoded_background := Apply background_encoder background_embedding in
  output_shape ← gets (λ t, [max_knowledge_length t + 1; max_sentence_length t]);
  let merged_encoded_rep :=
    Merge [encoded_sentence; encoded_background] merge_mode output_shape
          "concat_sentence_with_background_0" in
  let regularized_merged_rep := Dropout (2 # 10) merged_encoded_rep in
  knowledge_selector ← _get_knowledge_selector 0;
  let knowledge_selector := unwrap knowledge_selector in
  let attention_weights := Apply knowledge_selector regularized_merged_rep in
  let input_layers := [sentence_input_layer; background_input_layer] in
  mret (Model input_layers [attention_weights]).

(** Modelled from the spec: the training-loop driver of the base class
    [Pretrainer] runs the lifecycle (build model, prepare data, run) and
    then calls the [on_finished] hook explicitly; an exception raised by a
    step propagates to the caller. *)
Definition train (self : pretrainer) : M unit :=
  model ← _build_model;
  dataset ← _load_dataset_from_files (train_files self);
  data ← _prepare_data dataset true;
  fit model data;;
  on_finished self.

(** A pretraining run: construction, then training. *)
Definition pretrain (params : pretrainer_params) : M unit :=
  self ← __init__ params;
  train self.

(** The trainer states a pretrainer passes through between its construction
    and its completion hook: every step is one of its operations, run to its
    return or to the exception it raises. *)
Inductive pretraining_step (self : pretrainer) : trainer → trainer → Prop :=
| step_load files t :
    pretraining_step self t (_load_dataset_from_files files t).1
| step_prepare dataset for_train t :
    pretraining_step self t (_prepare_data dataset for_train t).1
| step_fit_data_indexer t :
    pretraining_step self t (fit_data_indexer self t).1
| step_build_model t :
    pretraining_step self t (_build_model t).1
| step_fit m data t :
    pretraining_step self t (fit m data t).1.

End AttentionPretrainer.

(** ** TrueFalseSolver *)

Section TrueFalseSolver.
Context `{Collaborators}.

Definition TrueFalseSolver_build_model : M model :=
  sentence_input ← gets (λ t, Input [max_sentence_length t] "int32" "sentence_input");
  let word_embeddings := Embedding sentence_input in
  sentence_encoder ← _get_sentence_encoder;
  let sentence_encoding := Apply sentence_encoder word_embeddings in
  let regularized_sentence_encoding := Dropout (2 # 10) sentence_encoding in
  units ← gets (λ t, embedding_size t ÷ 2);
  let output_probabilities :=
    Dense 2 "softmax" "softmax"
          (Dense units "relu" "projector" regularized_sentence_encoding) in
  mret (Model [sentence_input] [output_probabilities]).

Definition TrueFalseSolver_instance_type : string := "TrueFalseInstance".

Definition TrueFalseSolver_get_max_lengths (t : trainer) : gmap string Z :=
  {[ "word_sequence_length" := max_sentence_length t ]}.

Definition TrueFalseSolver_set_max_lengths (max_lengths : gmap string Z) : M unit :=
  match max_lengths !! "word_sequence_length" with
  | Some n => modify (set_max_sentence_length n)
  | None => raise (KeyError "word_sequence_length")
  end.

End TrueFalseSolver.

(** ** What a graph computes

    The backend: scalars, the word embedding, what a base layer computes on
    one sample, and dropout. *)
Class Backend := {
  scalar : Type;
  embed : scalar → ndarray scalar;
  call_base : string → option value → ndarray scalar → option (ndarray scalar);
  dense : Z → string → string → ndarray scalar → option (ndarray scalar);
  dropout : Q → ndarray scalar → ndarray scalar;
}.

Fixpoint has_shape {A} (shape : list Z) (x : ndarray A) {struct x} : bool :=
  match x, shape with
  | Scalar _, [] => true
  | Nd rows, n :: shape' =>
      bool_decide (Z.of_nat (length rows) = n) && forallb (has_shape shape') rows
  | _, _ => false
  end.

Section Eval.
Context `{Backend}.

Fixpoint embed_all (x : ndarray scalar) : ndarray scalar :=
  match x with
  | Scalar w => embed w
  | Nd rows => Nd (List.map embed_all rows)
  end.

(** A layer applied to one sample; a [TimeDistributed] wrapper applies the
    wrapped layer to every item of the sample. *)
Fixpoint call (l : layer) (x : ndarray scalar) : option (ndarray scalar) :=
  match l with
  | Layer n h => call_base n h x
  | TimeDistributed inner _ _ =>
      items ← rows_of x;
      Nd <$> mapM (call inner) items
  end.

(** The value of a tensor on a batch, given the batches fed to the input
    layers; every sample fed to an input layer has the declared shape. *)
Fixpoint eval (feed : string → option (ndarray scalar)) (t : tensor)
    : option (ndarray scalar) :=
  match t with
  | Input shape _ name =>
      x ← feed name;
      samples ← rows_of x;
      if forallb (has_shape shape) samples then Some x else None
  | Embedding x =>
      v ← eval feed x;
      samples ← rows_of v;
      Some (Nd (embed_all <$> samples))
  | Apply l x =>
      v ← eval feed x;
      samples ← rows_of v;
      Nd <$> mapM (call l) samples
  | Merge inputs mode _ _ =>
      layer_outs ← (fix evals (ts : list tensor) : option (list (ndarray scalar)) :=
                      match ts with
                      | [] => Some []
                      | t :: ts' =>
                          v ← eval feed t;
                          vs ← evals ts';
                          Some (v :: vs)
                      end) inputs;
      mode scalar layer_outs
  | Dropout rate x =>
      v ← eval feed x;
      samples ← rows_of v;
      Some (Nd (dropout rate <$> samples))
  | Dense units activation name x =>
      v ← eval feed x;
      samples ← rows_of v;
      Nd <$> mapM (dense units activation name) samples
  end.

End Eval.

(** ** Concrete trainers, collaborators and a backend *)

Definition memory_network_mro : list string :=
  ["MemoryNetworkSolver"; "TextTrainer"; "Trainer"; "object"].

Definition true_false_mro : list string :=
  ["TrueFalseSolver"; "TextTrainer"; "Trainer"; "object"].

(** A memory network configured for hard attention, model not built yet. *)
Definition hard_trainer : trainer :=
  Trainer memory_network_mro
          {[ "hard_selection" := VBool true ]} ∅ 3 2 4
          {[ "birds" := 0%nat ]} "simple" "QuestionInstance".

(** The same, with its first selector layer already constructed. *)
Definition hard_trainer_with_layer : trainer :=
  set_knowledge_selector_layers
    (λ _, {[ 0 := Layer "knowledge_selector_0" (Some (VBool true)) ]}) hard_trainer.

(** A memory network whose selector configuration leaves the flag out. *)
Definition default_trainer : trainer :=
  set_knowledge_selector_params (λ _, {[ "type" := VStr "parameterized" ]}) hard_trainer.

(** A [TrueFalseSolver]: a [TextTrainer] that is no memory network. *)
Definition true_false_trainer : trainer :=
  Trainer true_false_mro ∅ ∅ 3 0 4 ∅ "simple" TrueFalseSolver_instance_type.

Definition demo_train_file : TextDataset :=
  [TextInstance 0 ["birds"; "fly"]; TextInstance 1 ["fish"; "swim"]].

Definition demo_add_background (i : text_instance) : text_instance :=
  TextInstance (instance_index i) (instance_words i ++ ["water"; "fly"]).

Definition demo_index (word_index : gmap string nat) (w : string) : ndarray Z :=
  Scalar (Z.of_nat (default 1%nat (word_index !! w))).

Definition demo_indexed (word_index : gmap string nat) (i : text_instance)
    : instance_input * ndarray Z :=
  (Tuple [Nd (demo_index word_index <$> take 2 (instance_words i));
          Nd [Nd (demo_index word_index <$> drop 2 (instance_words i))]],
   Nd [Scalar 0; Scalar 1]).

Definition demo_selector (n : Z) : M layer := λ t,
  match knowledge_selector_layers t !! n with
  | Some l => (t, inr l)
  | None =>
      let l := TimeDistributed
                 (Layer "knowledge_selector"
                        (knowledge_selector_params t !! "hard_selection"))
                 "knowledge_selector_0" None in
      (set_knowledge_selector_layers <[n := l]> t, inr l)
  end.

(** Collaborators under which a pretraining run completes. *)
Definition demo : Collaborators := {|
  pretrainer_params := list string;
  indexed_dataset := list (instance_input * ndarray Z);
  Pretrainer_init := inr;
  read_from_file := λ f _ _,
    if String.eqb f "train.tsv" then inr demo_train_file else inl (IOError f);
  read_labeled_background_from_file := λ d f,
    if String.eqb f "background.tsv" then inr (demo_add_background <$> d)
    else inl (IOError f);
  to_indexed_dataset := λ d word_index, inr (demo_indexed word_index <$> d);
  pad_instances := λ d _, d;
  as_training_data := λ d, (fst <$> d, snd <$> d);
  _get_max_lengths := λ t,
    {[ "word_sequence_length" := max_sentence_length t;
       "background_sentences" := max_knowledge_length t ]};
  _get_sentence_encoder :=
    mret (wrap 2 (Layer "sentence_encoder" None));
  _get_knowledge_selector := demo_selector;
  fit := λ _ _, mret tt;
|}.

(** The same collaborators, except that training is interrupted. *)
Definition interrupted : Collaborators := {|
  pretrainer_params := list string;
  indexed_dataset := list (instance_input * ndarray Z);
  Pretrainer_init := inr;
  read_from_file := @read_from_file demo;
  read_labeled_background_from_file := @read_labeled_background_from_file demo;
  to_indexed_dataset := @to_indexed_dataset demo;
  pad_instances := @pad_instances demo;
  as_training_data := @as_training_data demo;
  _get_max_lengths := @_get_max_lengths demo;
  _get_sentence_encoder := @_get_sentence_encoder demo;
  _get_knowledge_selector := @_get_knowledge_selector demo;
  fit := λ _ _, raise (IOError "interrupted");
|}.

Definition demo_files : list string := ["train.tsv"; "background.tsv"].

(** A backend over integers: a word is embedded as two numbers, the encoder
    keeps the embedding of the first word, a selector gives every position
    the weight one. *)
Definition demo_backend : Backend := {|
  scalar := Z;
  embed := λ z, Nd [Scalar z; Scalar (z + 1)];
  call_base := λ n _ x,
    if String.eqb n "sentence_encoder" then rows_of x ≫= head
    else (λ rows, Nd ((λ _, Scalar 1) <$> rows)) <$> rows_of x;
  dense := λ _ _ _ x, Some x;
  dropout := λ _ x, x;
|}.

Definition demo_feed (name : string) : option (ndarray Z) :=
  if String.eqb name "sentence_input"
  then Some (Nd [Nd [Scalar 1; Scalar 2; Scalar 3]])
  else if String.eqb name "background_input"
  then Some (Nd [Nd [Nd [Scalar 4; Scalar 5; Scalar 6];
                     Nd [Scalar 7; Scalar 8; Scalar 9]]])
  else None.

(** [wraps base l]: [l] is the base layer [base] under any number of
    [TimeDistributed] wrappers. *)
Inductive wraps (base : layer) : layer → Prop :=
| wraps_base : is_time_distributed base = false → wraps base base
| wraps_time_distributed l n h :
    wraps base l → wraps base (TimeDistributed l n h).

(** The fields of a composite input. *)
Definition tuple_fields (x : instance_input) : list (ndarray Z) :=
  match x with
  | Tuple fields => fields
  | Single _ => []
  end.

(** The two embedded inputs of the attention sub-graph. *)
Definition sentence_embedding (t : trainer) : tensor :=
  Embedding (Input [max_sentence_length t] "int32" "sentence_input").

Definition background_embedding (t : trainer) : tensor :=
  Embedding (Input [max_knowledge_length t; max_sentence_length t] "int32"
                   "background_input").

(** The graph [_build_model] builds on the demo trainer. *)
Definition demo_model : model :=
  match (@_build_model demo hard_trainer).2 with
  | inr m => m
  | inl _ => Model [] []
  end.

Definition demo_pretrainer : pretrainer :=
  Pretrainer demo_files (VBool true) "AttentionPretrainer".

(** The demo trainer right after the construction of a pretrainer, and
    after the sub-graph has been built on it. *)
Definition soft_trainer : trainer :=
  set_knowledge_selector_params <["hard_selection" := VBool false]> hard_trainer.

Definition built_trainer : trainer := (@_build_model demo soft_trainer).1.

Definition finished_trainer : trainer := (@pretrain demo demo_files hard_trainer).1.

Definition demo_dataset : TextDataset := demo_add_background <$> demo_train_file.

Definition demo_inputs : list instance_input :=
  fst <$> (demo_indexed (data_indexer hard_trainer) <$> demo_dataset).

Definition demo_labels : list (ndarray Z) :=
  snd <$> (demo_indexed (data_indexer hard_trainer) <$> demo_dataset).

(** The fewest items any of the iterators has. *)
Definition min_length {A} (its : list (list A)) : nat :=
  match its with
  | [] => 0%nat
  | it :: others => foldr (λ x m, Nat.min (length x) m) (length it) others
  end.

(** The demo collaborators with another base-class constructor. *)
Definition with_base_init (init : list string → exn + list string) : Collaborators := {|
  pretrainer_params := list string;
  indexed_dataset := list (instance_input * ndarray Z);
  Pretrainer_init := init;
  read_from_file := @read_from_file demo;
  read_labeled_background_from_file := @read_labeled_background_from_file demo;
  to_indexed_dataset := @to_indexed_dataset demo;
  pad_instances := @pad_instances demo;
  as_training_data := @as_training_data demo;
  _get_max_lengths := @_get_max_lengths demo;
  _get_sentence_encoder := @_get_sentence_encoder demo;
  _get_knowledge_selector := @_get_knowledge_selector demo;
  fit := @fit demo;
|}.

(** The demo collaborators with the training data of the indexed dataset
    given directly. *)
Definition with_training_data (data : list instance_input * list (ndarray Z))
    : Collaborators := {|
  pretrainer_params := list string;
  indexed_dataset := list (instance_input * ndarray Z);
  Pretrainer_init := inr;
  read_from_file := @read_from_file demo;
  read_labeled_background_from_file := @read_labeled_background_from_file demo;
  to_indexed_dataset := @to_indexed_dataset demo;
  pad_instances := @pad_instances demo;
  as_training_data := λ _, data;
  _get_max_lengths := @_get_max_lengths demo;
  _get_sentence_encoder := @_get_sentence_encoder demo;
  _get_knowledge_selector := @_get_knowledge_selector demo;
  fit := @fit demo;
|}.

(** The demo collaborators with other layer accessors. *)
Definition with_accessors (encoder : M layer) (selector : Z → M layer)
    : Collaborators := {|
  pretrainer_params := list string;
  indexed_dataset := list (instance_input * ndarray Z);
  Pretrainer_init := inr;
  read_from_file := @read_from_file demo;
  read_labeled_background_from_file := @read_labeled_background_from_file demo;
  to_indexed_dataset := @to_indexed_dataset demo;
  pad_instances := @pad_instances demo;
  as_training_data := @as_training_data demo;
  _get_max_lengths := @_get_max_lengths demo;
  _get_sentence_encoder := encoder;
  _get_knowledge_selector := selector;
  fit := @fit demo;
|}.

(** Instance inputs whose tuples do not all have the same number of fields. *)
Definition ragged_inputs : list instance_input :=
  [Tuple [Nd [Scalar 1]; Nd [Scalar 2]; Nd [Scalar 3]];
   Tuple [Nd [Scalar 4]; Nd [Scalar 5]]].

Definition ragged_labels : list (ndarray Z) := [Scalar 0; Scalar 1].

(** The demo trainer after a selector layer was created from the forced
    configuration. *)
Definition soft_trainer_with_layer : trainer := (demo_selector 0 soft_trainer).1.

(** Collaborators whose base-class constructor finds no training files. *)
Definition failing_base_init : Collaborators :=
  with_base_init (λ _, inl (KeyError "train_files")).

Definition ragged : Collaborators :=
  with_training_data (ragged_inputs, ragged_labels).

(** Collaborators whose sentence encoder comes without a wrapper. *)
Definition plain_encoder : Collaborators :=
  with_accessors (mret (Layer "sentence_encoder" None)) demo_selector.

(** The graph [TrueFalseSolver._build_model] builds on the demo solver. *)
Definition true_false_model : model :=
  match (@TrueFalseSolver_build_model plain_encoder true_false_trainer).2 with
  | inr m => m
  | inl _ => Model [] []
  end.

Definition first_output (m : model) : tensor :=
  default (Input [] "" "") (output m !! 0%nat).

(** The merge of the demo graph. *)
Definition demo_merged : tensor :=
  Merge [Apply (Layer "sentence_encoder" None) (sentence_embedding hard_trainer);
         Apply (TimeDistributed (Layer "sentence_encoder" None)
                                "background_encoder" None)
               (background_embedding hard_trainer)]
        merge_mode [3; 3] "concat_sentence_with_background_0".


(** * Properties *)

Definition hard_selection_of (t : trainer) : option value :=
  knowledge_selector_params t !! "hard_selection".

Definition layers_read (t : trainer) (v : value) : Prop :=
  ∀ k l, knowledge_selector_layers t !! k = Some l → hard_selection l = Some v.

Ltac run :=
  unfold mbind, mret, M_bind, M_ret, gets, modify, lift, raise in *; cbn in *.

Section Hooks.
Context {C : Collaborators}.

Lemma hard_selection_set v l : hard_selection (set_hard_selection v l) = Some v.
Proof. by destruct l. Qed.

Lemma set_hard_selection_twice v w l :
  set_hard_selection v (set_hard_selection w l) = set_hard_selection v l.
Proof. by destruct l. Qed.

(** What a construction that completes has done. *)
Lemma init_completed params t t1 self :
  __init__ params t = (t1, inr self) →
  isinstance t "MemoryNetworkSolver" = true ∧
  ∃ files, Pretrainer_init params = inr files ∧
    self = Pretrainer files (default (VBool false) (hard_selection_of t))
                      "AttentionPretrainer" ∧
    t1 = set_knowledge_selector_params <["hard_selection" := VBool false]> t.
Proof.
  unfold __init__, hard_selection_of. run.
  destruct (isinstance t "MemoryNetworkSolver"); cbn; [|discriminate].
  destruct (Pretrainer_init params) as [e|files]; cbn; [discriminate|].
  intros [= <- <-]. eauto.
Qed.

Lemma on_finished_run self t :
  on_finished self t =
    (set_knowledge_selector_layers
       (fmap (set_hard_selection (_old_hard_attention_setting self)))
       (set_knowledge_selector_params
          <["hard_selection" := _old_hard_attention_setting self]> t),
     inr tt).
Proof. reflexivity. Qed.

Lemma on_finished_params self t :
  hard_selection_of (on_finished self t).1 = Some (_old_hard_attention_setting self).
Proof. rewrite on_finished_run. unfold hard_selection_of. cbn. apply lookup_insert_eq. Qed.

Lemma on_finished_layers self t :
  layers_read (on_finished self t).1 (_old_hard_attention_setting self).
Proof.
  rewrite on_finished_run. intros k l. cbn. rewrite lookup_fmap.
  destruct (knowledge_selector_layers t !! k) as [l0|]; cbn; [|discriminate].
  intros [= <-]. apply hard_selection_set.
Qed.

(** C1: when the configuration map holds [hard_selection = X] at
    construction, the completion hook, run on whatever the trainer has
    become since, leaves the map with [hard_selection = X] and every layer
    of [knowledge_selector_layers] with the attribute [hard_selection = X]. *)
Theorem on_finished_restores_hard_selection params t X t1 self t2 :
  hard_selection_of t = Some X →
  __init__ params t = (t1, inr self) →
  ∃ t3, on_finished self t2 = (t3, inr tt) ∧
    hard_selection_of t3 = Some X ∧
    layers_read t3 X ∧
    dom (knowledge_selector_layers t3) = dom (knowledge_selector_layers t2).
Proof.
  intros HX (_ & files & _ & -> & _)%init_completed.
  rewrite HX. cbn [default].
  set (self := Pretrainer files X "AttentionPretrainer").
  exists (on_finished self t2).1. split; [reflexivity|]. split; [|split].
  - apply (on_finished_params self).
  - apply (on_finished_layers self).
  - rewrite on_finished_run. cbn. apply dom_fmap_L.
Qed.

(** C9: the completion hook is idempotent; run twice it leaves the trainer
    exactly as run once. *)
Theorem on_finished_idempotent self t :
  on_finished self (on_finished self t).1 = on_finished self t.
Proof.
  rewrite !on_finished_run. cbn. f_equal.
  unfold set_knowledge_selector_layers, set_knowledge_selector_params. cbn.
  f_equal.
  - apply insert_insert_eq.
  - rewrite <- map_fmap_compose. apply map_fmap_ext.
    intros k l _. apply set_hard_selection_twice.
Qed.

(** C10: when the configuration map has no [hard_selection] key at
    construction, the saved value is [False], and the completion hook binds
    the key to [False] explicitly: the map it leaves has a key the map
    before pretraining did not have. *)
Theorem on_finished_inserts_missing_flag params t t1 self :
  hard_selection_of t = None →
  __init__ params t = (t1, inr self) →
  _old_hard_attention_setting self = VBool false ∧
  (∀ t2, hard_selection_of (on_finished self t2).1 = Some (VBool false)) ∧
  knowledge_selector_params (on_finished self t1).1 =
    <["hard_selection" := VBool false]> (knowledge_selector_params t) ∧
  knowledge_selector_params (on_finished self t1).1 ≠ knowledge_selector_params t.
Proof.
  intros Hnone (_ & files & _ & -> & ->)%init_completed.
  rewrite Hnone. cbn. split; [done|]. split; [|split].
  - intros t2. apply (on_finished_params (Pretrainer files (VBool false) _)).
  - rewrite on_finished_run. cbn. apply insert_insert_eq.
  - rewrite on_finished_run. cbn. rewrite insert_insert_eq. intros Heq.
    unfold hard_selection_of in Hnone. rewrite <- Heq in Hnone.
    by rewrite lookup_insert_eq in Hnone.
Qed.

(** C3: around a trainer that is no [MemoryNetworkSolver] the construction
    raises the configuration error; no pretrainer is returned and the
    trainer is left exactly as it was. *)
Theorem init_rejects_other_trainers params t :
  isinstance t "MemoryNetworkSolver" = false →
  __init__ params t =
    (t, inl (ConfigurationError
               "The AttentionPretrainer needs a subclass of MemoryNetworkSolver")).
Proof. intros Hno. unfold __init__. run. by rewrite Hno. Qed.

End Hooks.

(** ** Between construction and the completion hook *)

Section Pretraining.
Context {C : Collaborators}.

Lemma init_failed params t t1 e :
  __init__ params t = (t1, inl e) → t1 = t.
Proof.
  unfold __init__. run.
  destruct (isinstance t "MemoryNetworkSolver"); cbn; [|congruence].
  destruct (Pretrainer_init params); cbn; congruence.
Qed.

Lemma load_dataset_frame files t : (_load_dataset_from_files files t).1 = t.
Proof.
  unfold _load_dataset_from_files. run.
  destruct (getitem files 0) as [?|f0]; cbn; [done|].
  destruct (read_from_file f0 _ _) as [?|d]; cbn; [done|].
  destruct (getitem files 1) as [?|f1]; cbn; [done|].
  reflexivity.
Qed.

Lemma prepare_data_frame dataset for_train t :
  (_prepare_data dataset for_train t).1 = t.
Proof.
  unfold _prepare_data. run.
  destruct (to_indexed_dataset dataset _) as [?|indexed]; cbn; [done|].
  destruct (as_training_data _) as [inputs labels]. run.
  destruct (getitem inputs 0) as [?|first]; cbn; [done|].
  destruct (is_tuple first); cbn; [|done].
  destruct (iter_inputs inputs); cbn; done.
Qed.

Lemma fit_data_indexer_params self t :
  knowledge_selector_params (fit_data_indexer self t).1 = knowledge_selector_params t.
Proof.
  unfold fit_data_indexer. run.
  pose proof (load_dataset_frame (train_files self) t) as Hframe.
  destruct (_load_dataset_from_files (train_files self) t) as [t' [?|d]];
    cbn in *; by subst.
Qed.

Section Frame.
(** The trainer's layer accessors and the training loop do not write the
    flag of the configuration map. *)
Hypothesis encoder_frame : ∀ t,
  hard_selection_of (_get_sentence_encoder t).1 = hard_selection_of t.
Hypothesis selector_frame : ∀ n t,
  hard_selection_of (_get_knowledge_selector n t).1 = hard_selection_of t.
Hypothesis fit_frame : ∀ m data t,
  hard_selection_of (fit m data t).1 = hard_selection_of t.

Lemma build_model_params t :
  hard_selection_of (_build_model t).1 = hard_selection_of t.
Proof.
  unfold _build_model, _get_embedded_sentence_input. run.
  pose proof (encoder_frame t) as He.
  destruct (_get_sentence_encoder t) as [t1 [?|enc]]; cbn in *; [done|].
  pose proof (selector_frame 0 t1) as Hs.
  destruct (_get_knowledge_selector 0 t1) as [t2 [?|sel]]; cbn in *; congruence.
Qed.

Lemma pretraining_step_params self t t' :
  pretraining_step self t t' → hard_selection_of t' = hard_selection_of t.
Proof.
  destruct 1.
  - by rewrite load_dataset_frame.
  - by rewrite prepare_data_frame.
  - unfold hard_selection_of. by rewrite fit_data_indexer_params.
  - apply build_model_params.
  - apply fit_frame.
Qed.

Lemma pretraining_steps_params self t t' :
  rtc (pretraining_step self) t t' → hard_selection_of t' = hard_selection_of t.
Proof.
  induction 1 as [t|t t1 t2 Hstep _ IH]; [done|].
  by rewrite IH, (pretraining_step_params _ _ _ Hstep).
Qed.

(** X16: whatever the flag was before, the configuration map reads
    [hard_selection = False] right after construction and after every
    further operation of the pretrainer up to the completion hook, as long
    as the trainer's layer accessors and the training loop do not write the
    flag themselves. *)
Theorem pretraining_reads_soft_on_params params t t1 self t2 :
  __init__ params t = (t1, inr self) →
  rtc (pretraining_step self) t1 t2 →
  hard_selection_of t2 = Some (VBool false).
Proof.
  intros (_ & files & _ & _ & ->)%init_completed Hsteps.
  rewrite (pretraining_steps_params _ _ _ Hsteps).
  unfold hard_selection_of. cbn. apply lookup_insert_eq.
Qed.

End Frame.

Lemma train_completed self t t' u :
  train self t = (t', inr u) → ∃ t'', t' = (on_finished self t'').1.
Proof.
  unfold train. run.
  destruct (_build_model t) as [t1 [?|m]]; cbn; [discriminate|].
  destruct (_load_dataset_from_files (train_files self) t1) as [t2 [?|d]];
    cbn; [discriminate|].
  destruct (_prepare_data d true t2) as [t3 [?|data]]; cbn; [discriminate|].
  destruct (fit m data t3) as [t4 [?|[]]]; cbn; [discriminate|].
  intros [= <- _]. by exists t4.
Qed.

(** A training run that raises has stopped in one of its steps, before the
    completion hook. *)
Lemma train_raised self t t' e :
  train self t = (t', inl e) → rtc (pretraining_step self) t t'.
Proof.
  unfold train. run.
  pose proof (step_build_model self t) as Hbuild.
  destruct (_build_model t) as [t1 [?|m]]; cbn in *.
  { intros [= <- _]. by apply rtc_once. }
  pose proof (step_load self (train_files self) t1) as Hload.
  destruct (_load_dataset_from_files (train_files self) t1) as [t2 [?|d]];
    cbn in *.
  { intros [= <- _]. eauto using rtc_l, rtc_once. }
  pose proof (step_prepare self d true t2) as Hprepare.
  destruct (_prepare_data d true t2) as [t3 [?|data]]; cbn in *.
  { intros [= <- _]. eauto using rtc_l, rtc_once. }
  pose proof (step_fit self m data t3) as Hfit.
  destruct (fit m data t3) as [t4 [?|[]]]; cbn in *; [|discriminate].
  intros [= <- _]. eauto using rtc_l, rtc_once.
Qed.

(** C4, as the code has it: a run that completes has gone through the
    completion hook and leaves [hard_selection] at its value from before
    the run, on the map and on every selector layer; a run whose
    construction fails leaves the trainer untouched.  A run that raises
    after construction ends where the operations of the pretrainer up to
    the failing one have brought the trainer, the hook not having run: as
    long as the layer accessors and the training loop do not write the flag
    themselves, the map is left with [hard_selection = False]. *)
Theorem pretrain_restores_on_completion params t X t' r :
  hard_selection_of t = Some X →
  pretrain params t = (t', r) →
  (r = inr tt → hard_selection_of t' = Some X ∧ layers_read t' X) ∧
  (∀ e, (__init__ params t).2 = inl e → t' = t ∧ r = inl e) ∧
  (∀ t1 self e,
     __init__ params t = (t1, inr self) → r = inl e →
     rtc (pretraining_step self) t1 t' ∧
     ((∀ t, hard_selection_of (_get_sentence_encoder t).1 = hard_selection_of t) →
      (∀ n t, hard_selection_of (_get_knowledge_selector n t).1
                = hard_selection_of t) →
      (∀ m data t, hard_selection_of (fit m data t).1 = hard_selection_of t) →
      hard_selection_of t' = Some (VBool false))).
Proof.
  intros HX. unfold pretrain. run.
  destruct (__init__ params t) as [t1 [e|self]] eqn:Hinit; cbn.
  - intros [= <- <-]. split; [discriminate|]. split; [|discriminate].
    intros e' [= <-]. split; [|done]. by eapply init_failed.
  - intros Htrain. split; [|split; [discriminate|]].
    + intros ->. apply train_completed in Htrain as [t'' ->].
      apply init_completed in Hinit as (_ & files & _ & -> & _).
      rewrite HX. cbn [default].
      set (self0 := Pretrainer files X "AttentionPretrainer").
      split; [apply (on_finished_params self0)|apply (on_finished_layers self0)].
    + intros ? ? e [= <- <-] ->.
      pose proof (train_raised _ _ _ _ Htrain) as Hsteps.
      split; [exact Hsteps|].
      intros Hencoder Hselector Hfit.
      rewrite (pretraining_steps_params Hencoder Hselector Hfit _ _ _ Hsteps).
      apply init_completed in Hinit as (_ & files & _ & _ & ->).
      unfold hard_selection_of. cbn. apply lookup_insert_eq.
Qed.

End Pretraining.

(** ** Fitting the word dictionary *)

Section Vocabulary.
Context {C : Collaborators}.

Lemma add_word_keeps (word_index : gmap string nat) w v i :
  word_index !! v = Some i → add_word_to_index word_index w !! v = Some i.
Proof.
  intros Hv. unfold add_word_to_index.
  destruct (word_index !! w) eqn:Hw; [done|].
  rewrite lookup_insert_ne; [done|]. intros ->. congruence.
Qed.

Lemma add_word_resolves (word_index : gmap string nat) w :
  is_Some (add_word_to_index word_index w !! w).
Proof.
  unfold add_word_to_index.
  destruct (word_index !! w) eqn:Hw; [by rewrite Hw|].
  rewrite lookup_insert_eq. eauto.
Qed.

Lemma fit_words_keep ws (word_index : gmap string nat) v i :
  word_index !! v = Some i → foldl add_word_to_index word_index ws !! v = Some i.
Proof.
  revert word_index. induction ws as [|w ws IH]; intros word_index Hv; [done|].
  cbn. apply IH. by apply add_word_keeps.
Qed.

Lemma fit_words_resolve ws (word_index : gmap string nat) w :
  w ∈ ws → is_Some (foldl add_word_to_index word_index ws !! w).
Proof.
  revert word_index. induction ws as [|v ws IH]; intros word_index Hin.
  - by apply elem_of_nil in Hin.
  - cbn. apply elem_of_cons in Hin as [->|Hin]; [|by apply IH].
    destruct (add_word_resolves word_index v) as [i Hi].
    rewrite (fit_words_keep ws _ v i Hi). eauto.
Qed.

(** C8: [fit_data_indexer] reads the first training file with the trainer's
    own instance type and tokenizer, attaches the labeled background of the
    second file, and fits the trainer's word dictionary on the result: every
    token of the loaded examples is then resolvable, every word indexed
    before keeps its index, and nothing else of the trainer changes. *)
Theorem fit_data_indexer_resolves_tokens self t f0 f1 others primary dataset :
  train_files self = f0 :: f1 :: others →
  read_from_file f0 (instance_type t) (tokenizer t) = inr primary →
  read_labeled_background_from_file primary f1 = inr dataset →
  ∃ t', fit_data_indexer self t = (t', inr tt) ∧
    t' = set_data_indexer (fit_word_dictionary dataset) t ∧
    (∀ i w, i ∈ dataset → w ∈ instance_words i → is_Some (data_indexer t' !! w)) ∧
    (∀ w n, data_indexer t !! w = Some n → data_indexer t' !! w = Some n).
Proof.
  intros Hfiles Hprimary Hdataset.
  exists (set_data_indexer (fit_word_dictionary dataset) t).
  split; [|split; [done|split]].
  - unfold fit_data_indexer, _load_dataset_from_files. run.
    rewrite Hfiles. cbn. rewrite Hprimary. cbn. by rewrite Hdataset.
  - intros i w Hi Hw. cbn. apply fit_words_resolve.
    unfold dataset_words. apply list_elem_of_bind. eauto.
  - intros w n Hw. cbn. by apply fit_words_keep.
Qed.

End Vocabulary.

(** ** Preparing the data *)

Section DataPreparation.
Context {C : Collaborators}.

Lemma zip_rows_column {A} n (its : list (list A)) j column :
  zip_rows n its !! j = Some column →
  Forall2 (λ it x, it !! j = Some x) its column.
Proof.
  revert its j column. induction n as [|n IH]; intros its j column; cbn; [done|].
  destruct (mapM head its) as [row|] eqn:Hrow; [|done].
  destruct j as [|j]; cbn.
  - intros [= <-]. apply mapM_Some_1 in Hrow.
    eapply Forall2_impl; [exact Hrow|]. intros it x. cbn beta.
    by rewrite head_lookup.
  - intros Hj%IH. apply Forall2_fmap_l in Hj.
    eapply Forall2_impl; [exact Hj|]. intros it x. unfold compose.
    by rewrite lookup_tail.
Qed.


Lemma iter_inputs_tuples inputs :
  Forall (λ x, is_tuple x = true) inputs →
  iter_inputs inputs = inr (tuple_fields <$> inputs).
Proof.
  induction 1 as [|x inputs Hx _ IH]; [done|].
  cbn. destruct x; [discriminate|]. cbn. by rewrite IH.
Qed.

(** [_prepare_data] up to the point where it looks at the first input. *)
Lemma prepare_data_run dataset for_train t indexed inputs labels :
  to_indexed_dataset dataset (data_indexer t) = inr indexed →
  as_training_data (pad_instances indexed (_get_max_lengths t)) = (inputs, labels) →
  _prepare_data dataset for_train t =
    match getitem inputs 0 with
    | inl e => (t, inl e)
    | inr first =>
        if is_tuple first
        then match iter_inputs inputs with
             | inl e => (t, inl e)
             | inr its => (t, inr (FieldArrays (Nd <$> zip_star its), Nd labels))
             end
        else (t, inr (OneArray (Nd (input_as_array <$> inputs)), Nd labels))
    end.
Proof.
  intros Hindexed Hdata. unfold _prepare_data. run.
  rewrite Hindexed. cbn. rewrite Hdata. run.
  destruct (getitem inputs 0) as [?|first]; cbn; [done|].
  destruct (is_tuple first); cbn; [|done].
  destruct (iter_inputs inputs); cbn; done.
Qed.


End DataPreparation.

(** ** The attention sub-graph *)

Section Graph.
Context {C : Collaborators}.

Lemma unwrap_is_base l : is_time_distributed (unwrap l) = false.
Proof. induction l; done. Qed.

Lemma unwrap_wraps base l : wraps base l → unwrap l = base.
Proof.
  induction 1 as [Hbase|l n h _ IH]; [|done].
  by destruct base.
Qed.

Lemma wraps_unwrap l : wraps (unwrap l) l.
Proof.
  induction l as [n h|inner IH n h]; cbn.
  - by constructor.
  - by constructor.
Qed.

(** What a call of [_build_model] that returns has built. *)
Lemma build_model_completed t t' m :
  _build_model t = (t', inr m) →
  ∃ t1 encoder selector,
    _get_sentence_encoder t = (t1, inr encoder) ∧
    _get_knowledge_selector 0 t1 = (t', inr selector) ∧
    m = Model
          [Input [max_sentence_length t] "int32" "sentence_input";
           Input [max_knowledge_length t; max_sentence_length t] "int32"
                 "background_input"]
          [Apply (unwrap selector)
             (Dropout (2 # 10)
                (Merge
                   [Apply (unwrap encoder) (sentence_embedding t);
                    Apply (TimeDistributed (unwrap encoder) "background_encoder" None)
                          (background_embedding t)]
                   merge_mode
                   [max_knowledge_length t1 + 1; max_sentence_length t1]
                   "concat_sentence_with_background_0"))].
Proof.
  unfold _build_model, _get_embedded_sentence_input. run.
  destruct (_get_sentence_encoder t) as [t1 [?|encoder]] eqn:Henc;
    cbn; [discriminate|].
  destruct (_get_knowledge_selector 0 t1) as [t2 [?|selector]] eqn:Hsel;
    cbn; [discriminate|].
  intros [= <- <-]. by exists t1, encoder, selector.
Qed.

(** C7: the sentence encoder and the knowledge selector that
    [_build_model] gets from the trainer are applied stripped of every
    [TimeDistributed] wrapper: the layer applied to the sentence embedding
    and the layer applied to the merged representation are base layers, the
    bases of what the accessors returned, and the background encoder is
    exactly one wrapper around the base encoder. *)
Theorem build_model_applies_unwrapped_layers t t' m :
  _build_model t = (t', inr m) →
  ∃ t1 encoder selector encoder_base selector_base merged_shape,
    _get_sentence_encoder t = (t1, inr encoder) ∧
    _get_knowledge_selector 0 t1 = (t', inr selector) ∧
    wraps encoder_base encoder ∧
    wraps selector_base selector ∧
    is_time_distributed encoder_base = false ∧
    is_time_distributed selector_base = false ∧
    output m =
      [Apply selector_base
         (Dropout (2 # 10)
            (Merge
               [Apply encoder_base (sentence_embedding t);
                Apply (TimeDistributed encoder_base "background_encoder" None)
                      (background_embedding t)]
               merge_mode merged_shape "concat_sentence_with_background_0"))].
Proof.
  intros (t1 & encoder & selector & Henc & Hsel & ->)%build_model_completed.
  exists t1, encoder, selector, (unwrap encoder), (unwrap selector).
  eexists. repeat split; try done;
    auto using wraps_unwrap, unwrap_is_base.
Qed.

(** *** The merge *)

Lemma concatenate_question_first {A} (qs ys merged : list (ndarray A)) :
  concatenate_samples ((λ s, Nd [s]) <$> qs) ys = Some merged →
  ∃ bgs, ys = Nd <$> bgs ∧ length qs = length bgs ∧
    merged = zip_with (λ q bg, Nd (q :: bg)) qs bgs.
Proof.
  revert ys merged. induction qs as [|q qs IH]; intros [|y ys] merged; cbn;
    try discriminate.
  - intros [= <-]. by exists [].
  - destruct y as [?|bg]; cbn; [discriminate|].
    destruct (concatenate_samples _ ys) as [rest|] eqn:Hrest; cbn; [|discriminate].
    intros [= <-]. destruct (IH _ _ Hrest) as (bgs & -> & Hlen & ->).
    exists (bg :: bgs). cbn. by rewrite Hlen.
Qed.

Lemma merge_mode_question_first {A} (x y v : ndarray A) :
  merge_mode A [x; y] = Some v →
  ∃ qs bgs, x = Nd qs ∧ y = Nd (Nd <$> bgs) ∧ length qs = length bgs ∧
    v = Nd (zip_with (λ q bg, Nd (q :: bg)) qs bgs).
Proof.
  unfold merge_mode, expand_dims_1, concatenate_1. cbn.
  destruct x as [?|qs]; cbn; [discriminate|].
  destruct y as [?|ys]; cbn; [discriminate|].
  destruct (concatenate_samples _ ys) as [merged|] eqn:Hmerged; cbn; [|discriminate].
  intros [= <-]. destruct (concatenate_question_first _ _ _ Hmerged)
    as (bgs & -> & Hlen & ->).
  by exists qs, bgs.
Qed.

Lemma concatenate_builds {A} (qs : list (ndarray A)) (bgs : list (list (ndarray A))) :
  length qs = length bgs →
  concatenate_samples ((λ s, Nd [s]) <$> qs) (Nd <$> bgs)
    = Some (zip_with (λ q bg, Nd (q :: bg)) qs bgs).
Proof.
  revert bgs. induction qs as [|q qs IH]; intros [|bg bgs] Hlen;
    cbn in *; try done.
  rewrite IH by lia. done.
Qed.

Lemma merge_mode_builds {A} (qs : list (ndarray A)) (bgs : list (list (ndarray A))) :
  length qs = length bgs →
  merge_mode A [Nd qs; Nd (Nd <$> bgs)]
    = Some (Nd (zip_with (λ q bg, Nd (q :: bg)) qs bgs)).
Proof.
  intros Hlen. unfold merge_mode, expand_dims_1, concatenate_1. cbn.
  by rewrite (concatenate_builds _ _ Hlen).
Qed.

Lemma arrays_of_rows {A} (P : list (ndarray A) → Prop) (ys : list (ndarray A)) :
  Forall (λ y, ∃ bg, y = Nd bg ∧ P bg) ys → ∃ bgs, ys = Nd <$> bgs.
Proof.
  induction 1 as [|y ys (bg & -> & _) _ [bgs ->]]; [by exists []|].
  by exists (bg :: bgs).
Qed.

Section Evaluation.
Context {B : Backend}.

Lemma eval_merge_two feed a b mode shape name :
  eval feed (Merge [a; b] mode shape name) =
    x ← eval feed a; y ← eval feed b; mode scalar [x; y].
Proof.
  cbn [eval].
  destruct (eval feed a) as [x|]; cbn; [|done].
  by destruct (eval feed b) as [y|].
Qed.

Lemma call_time_distributed inner n h x y :
  call (TimeDistributed inner n h) x = Some y →
  ∃ items bg, x = Nd items ∧ y = Nd bg ∧ length bg = length items.
Proof.
  cbn. destruct x as [?|items]; cbn; [discriminate|].
  destruct (mapM (call inner) items) as [bg|] eqn:Hbg; cbn; [|discriminate].
  intros [= <-]. exists items, bg. repeat split.
  symmetry. by eapply Forall2_length, mapM_Some_1.
Qed.

Lemma has_shape_rows {A} n shape (x : ndarray A) :
  has_shape (n :: shape) x = true →
  ∃ rows, x = Nd rows ∧ Z.of_nat (length rows) = n.
Proof.
  destruct x as [?|rows]; cbn; [discriminate|].
  intros [Hn _]%andb_prop. apply bool_decide_eq_true in Hn. eauto.
Qed.

(** Every sample of the encoded background has one encoding per background
    slot of the input. *)
Lemma encoded_background_slots feed t encoder n h v :
  eval feed (Apply (TimeDistributed encoder n h) (background_embedding t)) = Some v →
  ∃ ys, v = Nd ys ∧
    Forall (λ y, ∃ bg, y = Nd bg ∧ Z.of_nat (length bg) = max_knowledge_length t) ys.
Proof.
  unfold background_embedding. cbn [eval].
  destruct (feed "background_input") as [x|]; cbn; [|discriminate].
  destruct x as [?|samples]; cbn; [discriminate|].
  destruct (forallb _ samples) eqn:Hshape; cbn; [|discriminate].
  destruct (mapM _ (embed_all <$> samples)) as [ys|] eqn:Hys; cbn; [|discriminate].
  intros [= <-]. exists ys. split; [done|].
  apply mapM_Some_1, Forall2_fmap_l in Hys.
  rewrite forallb_forall in Hshape.
  apply Forall_forall. intros y Hy.
  apply list_elem_of_lookup in Hy as [i Hy].
  destruct (Forall2_lookup_r _ _ _ _ _ Hys Hy) as (sample & Hsample & Hcall).
  unfold compose in Hcall.
  apply list_elem_of_lookup_2, list_elem_of_In, Hshape, has_shape_rows in Hsample
    as (rows & -> & Hrows).
  apply (call_time_distributed encoder n h) in Hcall
    as (items & bg & [= <-] & -> & Hlen).
  exists bg. split; [done|]. rewrite Hlen, length_map. exact Hrows.
Qed.

(** The merge has a value as soon as its two inputs have values for
    equally many samples. *)
Lemma merge_has_value feed t encoder shape name qs ys :
  eval feed (Apply encoder (sentence_embedding t)) = Some (Nd qs) →
  eval feed (Apply (TimeDistributed encoder "background_encoder" None)
                   (background_embedding t)) = Some (Nd ys) →
  length qs = length ys →
  ∃ bgs, ys = Nd <$> bgs ∧
    eval feed (Merge [Apply encoder (sentence_embedding t);
                      Apply (TimeDistributed encoder "background_encoder" None)
                            (background_embedding t)]
                     merge_mode shape name)
      = Some (Nd (zip_with (λ q bg, Nd (q :: bg)) qs bgs)).
Proof.
  intros Hqs Hys Hlen.
  destruct (encoded_background_slots _ _ _ _ _ _ Hys) as (ys' & [= <-] & Hslots).
  destruct (arrays_of_rows _ _ Hslots) as [bgs ->].
  exists bgs. split; [done|].
  rewrite eval_merge_two, Hqs, Hys. cbn [mbind option_bind].
  apply merge_mode_builds. by rewrite length_fmap in Hlen.
Qed.

Lemma shapes_hold {A} shape (samples : list (ndarray A)) :
  Forall (λ s, has_shape shape s = true) samples →
  forallb (has_shape shape) samples = true.
Proof.
  intros Hall. apply forallb_forall. intros s Hs.
  rewrite Forall_forall in Hall. by apply Hall, list_elem_of_In.
Qed.

(** On questions of the declared shape the encoded sentence has a value,
    one encoding per question, if the encoder has one for each of them. *)
Lemma encoded_sentence_defined feed t encoder questions :
  feed "sentence_input" = Some (Nd questions) →
  Forall (λ q, has_shape [max_sentence_length t] q = true) questions →
  (∀ sentence, has_shape [max_sentence_length t] sentence = true →
               is_Some (call encoder (embed_all sentence))) →
  ∃ qs, eval feed (Apply encoder (sentence_embedding t)) = Some (Nd qs) ∧
    length qs = length questions.
Proof.
  intros Hfeed Hshape Hencoder. unfold sentence_embedding. cbn [eval].
  rewrite Hfeed. cbn. rewrite (shapes_hold _ _ Hshape). cbn.
  destruct (mapM (call encoder) (embed_all <$> questions)) as [qs|] eqn:Hqs.
  - exists qs. split; [done|].
    apply mapM_Some_1, Forall2_length in Hqs. by rewrite length_fmap in Hqs.
  - exfalso. assert (is_Some (mapM (call encoder) (embed_all <$> questions)))
      as [? Hsome]; [|congruence].
    apply mapM_is_Some_2, Forall_fmap.
    eapply Forall_impl; [exact Hshape|]. intros q Hq. by apply Hencoder.
Qed.

Lemma encoded_background_defined feed t encoder backgrounds :
  feed "background_input" = Some (Nd backgrounds) →
  Forall (λ b, has_shape [max_knowledge_length t; max_sentence_length t] b = true)
         backgrounds →
  (∀ sentence, has_shape [max_sentence_length t] sentence = true →
               is_Some (call encoder (embed_all sentence))) →
  ∃ ys, eval feed (Apply (TimeDistributed encoder "background_encoder" None)
                         (background_embedding t)) = Some (Nd ys) ∧
    length ys = length backgrounds.
Proof.
  intros Hfeed Hshape Hencoder. unfold background_embedding. cbn [eval].
  rewrite Hfeed. cbn [mbind option_bind rows_of].
  rewrite (shapes_hold _ _ Hshape). cbn [mbind option_bind rows_of].
  destruct (mapM (call (TimeDistributed encoder "background_encoder" None))
                 (embed_all <$> backgrounds)) as [ys|] eqn:Hys.
  - exists ys. split; [done|].
    apply mapM_Some_1, Forall2_length in Hys. by rewrite length_fmap in Hys.
  - exfalso.
    assert (is_Some (mapM (call (TimeDistributed encoder "background_encoder" None))
                          (embed_all <$> backgrounds)))
      as [? Hsome]; [|congruence].
    apply mapM_is_Some_2, Forall_fmap.
    eapply Forall_impl; [exact Hshape|]. intros b Hb. unfold compose.
    destruct b as [?|rows]; cbn in Hb; [discriminate|].
    apply andb_prop in Hb as [_ Hrows]. rewrite forallb_forall in Hrows.
    cbn.
    assert (is_Some (mapM (call encoder) (List.map embed_all rows)))
      as [bg ->]; [|by eexists].
    apply mapM_is_Some_2, Forall_forall. intros x Hx.
    apply list_elem_of_In, in_map_iff in Hx as (row & <- & Hrow).
    by apply Hencoder, Hrows.
Qed.

End Evaluation.

(** C5: the graph [_build_model] returns has one output, the first knowledge
    selector applied to the (dropout-regularised) merge of the encoded
    question with the encoded background.  The merge has a value as soon as
    the two encodings have values for equally many samples, in particular
    on every feed of equally many questions and background sets of the
    declared shapes whose sentences the encoder encodes.  Every sample of
    the value is a sequence of exactly [max_knowledge_length + 1] positions:
    the question encoding at position 0, then the encoding of background
    item [i] at position [i + 1]. *)
Theorem build_model_merges_question_first t t' m :
  _build_model t = (t', inr m) →
  ∃ t1 selector encoder merged_shape,
    let encoded_sentence := Apply encoder (sentence_embedding t) in
    let encoded_background :=
      Apply (TimeDistributed encoder "background_encoder" None)
            (background_embedding t) in
    let merged :=
      Merge [encoded_sentence; encoded_background] merge_mode merged_shape
            "concat_sentence_with_background_0" in
    _get_knowledge_selector 0 t1 = (t', inr selector) ∧
    output m = [Apply (unwrap selector) (Dropout (2 # 10) merged)] ∧
    ∀ (B : Backend) feed,
      (∀ qs ys,
         eval feed encoded_sentence = Some (Nd qs) →
         eval feed encoded_background = Some (Nd ys) →
         length qs = length ys →
         ∃ samples, eval feed merged = Some (Nd samples) ∧
           length samples = length qs) ∧
      (∀ questions backgrounds,
         feed "sentence_input" = Some (Nd questions) →
         feed "background_input" = Some (Nd backgrounds) →
         length questions = length backgrounds →
         Forall (λ q, has_shape [max_sentence_length t] q = true) questions →
         Forall (λ b, has_shape [max_knowledge_length t; max_sentence_length t] b
                      = true) backgrounds →
         (∀ sentence, has_shape [max_sentence_length t] sentence = true →
                      is_Some (call encoder (embed_all sentence))) →
         ∃ samples, eval feed merged = Some (Nd samples) ∧
           length samples = length questions) ∧
      (∀ v, eval feed merged = Some v →
         ∃ qs bgs samples,
           eval feed encoded_sentence = Some (Nd qs) ∧
           eval feed encoded_background = Some (Nd (Nd <$> bgs)) ∧
           v = Nd samples ∧
           length samples = length qs ∧
           length samples = length bgs ∧
           ∀ s q bg, qs !! s = Some q → bgs !! s = Some bg →
             ∃ positions,
               samples !! s = Some (Nd positions) ∧
               Z.of_nat (length positions) = max_knowledge_length t + 1 ∧
               positions !! 0%nat = Some q ∧
               ∀ i, positions !! S i = bg !! i).
Proof.
  intros (t1 & encoder & selector & Henc & Hsel & ->)%build_model_completed.
  exists t1, selector, (unwrap encoder). eexists. cbn zeta.
  split; [exact Hsel|]. split; [reflexivity|].
  intros B feed. split; [|split].
  - intros qs ys Hqs Hys Hlen.
    destruct (merge_has_value feed t (unwrap encoder)
                [max_knowledge_length t1 + 1; max_sentence_length t1]
                "concat_sentence_with_background_0" qs ys Hqs Hys Hlen)
      as (bgs & -> & Hmerged).
    eexists. split; [exact Hmerged|].
    rewrite length_fmap in Hlen. by rewrite length_zip_with_l_eq.
  - intros questions backgrounds Hfeed_q Hfeed_b Hlen Hshape_q Hshape_b Hencoder.
    destruct (encoded_sentence_defined feed t (unwrap encoder) questions
                Hfeed_q Hshape_q Hencoder) as (qs & Hqs & Hlen_q).
    destruct (encoded_background_defined feed t (unwrap encoder) backgrounds
                Hfeed_b Hshape_b Hencoder) as (ys & Hys & Hlen_b).
    destruct (merge_has_value feed t (unwrap encoder)
                [max_knowledge_length t1 + 1; max_sentence_length t1]
                "concat_sentence_with_background_0" qs ys Hqs Hys ltac:(lia))
      as (bgs & -> & Hmerged).
    eexists. split; [exact Hmerged|].
    rewrite length_fmap in Hlen_b. rewrite length_zip_with_l_eq; lia.
  - intros v. rewrite eval_merge_two.
    destruct (eval feed (Apply (unwrap encoder) (sentence_embedding t)))
      as [x|] eqn:Hx; cbn [mbind option_bind]; [|discriminate].
    destruct (eval feed (Apply (TimeDistributed (unwrap encoder)
                                  "background_encoder" None) (background_embedding t)))
      as [y|] eqn:Hy; cbn [mbind option_bind]; [|discriminate].
    intros (qs & bgs & -> & -> & Hlen & ->)%merge_mode_question_first.
    exists qs, bgs, (zip_with (λ q bg, Nd (q :: bg)) qs bgs).
    split; [done|]. split; [done|]. split; [done|].
    split; [by rewrite length_zip_with_l_eq|].
    split; [by rewrite length_zip_with_r_eq|].
    intros s q bg Hq Hbg. exists (q :: bg).
    split; [by rewrite lookup_zip_with, Hq, Hbg|].
    split; [|done].
    apply encoded_background_slots in Hy as (ys & [= <-] & Hslots).
    rewrite Forall_forall in Hslots.
    destruct (Hslots (Nd bg)) as (bg' & [= <-] & Hbg').
    { apply list_elem_of_fmap. eauto using list_elem_of_lookup_2. }
    cbn [length]. lia.
Qed.

End Graph.

(** * The properties on concrete trainers *)

(** C1 on the demo trainer, with the hook run after the sub-graph was built. *)
Lemma on_finished_restores_hard_selection_witness :
  ∃ t3, on_finished demo_pretrainer built_trainer = (t3, inr tt) ∧
    hard_selection_of t3 = Some (VBool true) ∧
    layers_read t3 (VBool true) ∧
    dom (knowledge_selector_layers t3) = dom (knowledge_selector_layers built_trainer).
Proof.
  apply (@on_finished_restores_hard_selection demo demo_files hard_trainer
           (VBool true) soft_trainer demo_pretrainer built_trainer).
  - vm_compute. reflexivity.
  - vm_compute. reflexivity.
Defined.

(** C10 on a trainer whose selector configuration leaves the flag out. *)
Lemma on_finished_inserts_missing_flag_witness :
  _old_hard_attention_setting (Pretrainer demo_files (VBool false) "AttentionPretrainer")
    = VBool false ∧
  hard_selection_of default_trainer = None ∧
  hard_selection_of
    (on_finished (Pretrainer demo_files (VBool false) "AttentionPretrainer")
                 (@__init__ demo demo_files default_trainer).1).1
    = Some (VBool false).
Proof.
  destruct (@on_finished_inserts_missing_flag demo demo_files default_trainer
              (@__init__ demo demo_files default_trainer).1
              (Pretrainer demo_files (VBool false) "AttentionPretrainer"))
    as (Hsaved & Hread & _).
  - vm_compute. reflexivity.
  - vm_compute. reflexivity.
  - split; [exact Hsaved|]. split; [vm_compute; reflexivity|]. apply Hread.
Defined.

(** C3 on a [TrueFalseSolver]. *)
Lemma init_rejects_other_trainers_witness :
  @__init__ demo demo_files true_false_trainer =
    (true_false_trainer,
     inl (ConfigurationError
            "The AttentionPretrainer needs a subclass of MemoryNetworkSolver")).
Proof.
  apply (@init_rejects_other_trainers demo demo_files true_false_trainer).
  vm_compute. reflexivity.
Defined.

(** C2 at a memory network whose first selector layer is already built
    with hard attention: construction completes and forces the flag of the
    configuration map, but the layer is not written and still reads
    [hard_selection = True]. *)
Lemma init_on_built_trainer_keeps_layer_hard :
  @__init__ demo demo_files hard_trainer_with_layer
    = (set_knowledge_selector_params <["hard_selection" := VBool false]>
         hard_trainer_with_layer,
       inr demo_pretrainer) ∧
  hard_selection_of (@__init__ demo demo_files hard_trainer_with_layer).1
    = Some (VBool false) ∧
  hard_selection <$>
    knowledge_selector_layers
      (@__init__ demo demo_files hard_trainer_with_layer).1 !! 0
    = Some (Some (VBool true)).
Proof. repeat split; vm_compute; reflexivity. Qed.

(** Hence not every selector layer reads [False] after construction. *)
Lemma init_leaves_existing_layer_hard :
  ¬ (∀ (C : Collaborators) (params : pretrainer_params) t t1 self,
       __init__ params t = (t1, inr self) →
       hard_selection_of t1 = Some (VBool false) ∧ layers_read t1 (VBool false)).
Proof.
  intros Hclaim.
  destruct (Hclaim demo demo_files hard_trainer_with_layer
              (@__init__ demo demo_files hard_trainer_with_layer).1
              demo_pretrainer) as [_ Hlayers].
  - vm_compute. reflexivity.
  - specialize (Hlayers 0 (Layer "knowledge_selector_0" (Some (VBool true)))).
    vm_compute in Hlayers. specialize (Hlayers eq_refl). discriminate.
Qed.

Lemma demo_selector_frame n t :
  hard_selection_of (demo_selector n t).1 = hard_selection_of t.
Proof. unfold demo_selector. by destruct (knowledge_selector_layers t !! n). Qed.

(** X16 on the demo trainer: after the sub-graph was built and the
    dictionary was fit the map still reads [False]. *)
Lemma pretraining_reads_soft_on_params_witness :
  hard_selection_of
    (@fit_data_indexer demo demo_pretrainer (@_build_model demo soft_trainer).1).1
    = Some (VBool false).
Proof.
  apply (@pretraining_reads_soft_on_params demo
           (λ t, eq_refl) demo_selector_frame (λ m data t, eq_refl)
           demo_files hard_trainer soft_trainer demo_pretrainer).
  - vm_compute. reflexivity.
  - eapply rtc_l; [apply step_build_model|].
    eapply rtc_l; [apply step_fit_data_indexer|]. apply rtc_refl.
Defined.

(** C4 as stated fails: a run interrupted while fitting leaves the flag
    forced to [False]. *)
Lemma interrupted_pretraining_stays_soft :
  ¬ (∀ (C : Collaborators) (params : pretrainer_params) t X t' r,
       hard_selection_of t = Some X →
       pretrain params t = (t', r) →
       hard_selection_of t' = Some X).
Proof.
  intros Hclaim.
  specialize (Hclaim interrupted demo_files hard_trainer (VBool true)
                (@pretrain interrupted demo_files hard_trainer).1
                (inl (IOError "interrupted"))).
  assert (hard_selection_of (@pretrain interrupted demo_files hard_trainer).1
          = Some (VBool true)) as Hrestored.
  { apply Hclaim; vm_compute; reflexivity. }
  vm_compute in Hrestored. discriminate.
Qed.

(** C4, as the code has it, on a run that completes and on a run that is
    interrupted while fitting. *)
Lemma pretrain_restores_on_completion_witness :
  (hard_selection_of finished_trainer = Some (VBool true) ∧
   layers_read finished_trainer (VBool true)) ∧
  hard_selection_of (@pretrain interrupted demo_files hard_trainer).1
    = Some (VBool false).
Proof.
  split.
  - destruct (@pretrain_restores_on_completion demo demo_files hard_trainer
                (VBool true) finished_trainer (inr tt)) as [Hrestored _].
    + vm_compute. reflexivity.
    + vm_compute. reflexivity.
    + apply Hrestored. reflexivity.
  - destruct (@pretrain_restores_on_completion interrupted demo_files hard_trainer
                (VBool true) (@pretrain interrupted demo_files hard_trainer).1
                (inl (IOError "interrupted"))) as (_ & _ & Hraised).
    + vm_compute. reflexivity.
    + vm_compute. reflexivity.
    + destruct (Hraised soft_trainer demo_pretrainer (IOError "interrupted"))
        as [_ Hsoft].
      * vm_compute. reflexivity.
      * reflexivity.
      * apply Hsoft.
        -- intros t. reflexivity.
        -- apply demo_selector_frame.
        -- intros m data t. reflexivity.
Defined.




(** C8 on the two demo files. *)
Lemma fit_data_indexer_resolves_tokens_witness :
  ∃ t', @fit_data_indexer demo demo_pretrainer hard_trainer = (t', inr tt) ∧
    t' = set_data_indexer (fit_word_dictionary demo_dataset) hard_trainer ∧
    (∀ i w, i ∈ demo_dataset → w ∈ instance_words i →
            is_Some (data_indexer t' !! w)) ∧
    (∀ w n, data_indexer hard_trainer !! w = Some n → data_indexer t' !! w = Some n).
Proof.
  apply (@fit_data_indexer_resolves_tokens demo demo_pretrainer hard_trainer
           "train.tsv" "background.tsv" [] demo_train_file demo_dataset).
  - reflexivity.
  - reflexivity.
  - reflexivity.
Defined.

(** C7 on the demo trainer, whose encoder comes wrapped twice and whose
    selector comes wrapped once. *)
Lemma build_model_applies_unwrapped_layers_witness :
  ∃ encoder_base selector_base merged_shape,
    is_time_distributed encoder_base = false ∧
    is_time_distributed selector_base = false ∧
    output demo_model =
      [Apply selector_base
         (Dropout (2 # 10)
            (Merge
               [Apply encoder_base (sentence_embedding hard_trainer);
                Apply (TimeDistributed encoder_base "background_encoder" None)
                      (background_embedding hard_trainer)]
               merge_mode merged_shape "concat_sentence_with_background_0"))].
Proof.
  destruct (@build_model_applies_unwrapped_layers demo hard_trainer
              (@_build_model demo hard_trainer).1 demo_model)
    as (_ & _ & _ & encoder_base & selector_base & merged_shape
        & _ & _ & _ & _ & Hencoder & Hselector & Houtput).
  - vm_compute. reflexivity.
  - by exists encoder_base, selector_base, merged_shape.
Defined.

Lemma demo_encoder_defined (sentence : ndarray Z) :
  has_shape [3] sentence = true →
  is_Some (@call demo_backend (Layer "sentence_encoder" None)
                 (@embed_all demo_backend sentence)).
Proof.
  destruct sentence as [?|[|word words]]; cbn; try discriminate.
  intros _. by eexists.
Qed.

(** C5 on the demo trainer, fed one question and its two background
    sentences: the output is the selector over the merge, and the merge has
    a value with one sample. *)
Lemma build_model_merges_question_first_witness :
  (∃ selector, output demo_model = [Apply selector (Dropout (2 # 10) demo_merged)]) ∧
  ∃ samples,
    @eval demo_backend demo_feed demo_merged = Some (Nd samples) ∧
    length samples = 1%nat.
Proof.
  destruct (@build_model_merges_question_first demo hard_trainer
              (@_build_model demo hard_trainer).1 demo_model)
    as (_ & selector & encoder & merged_shape & _ & Houtput & Hvalues).
  - vm_compute. reflexivity.
  - assert (encoder = Layer "sentence_encoder" None ∧ merged_shape = [3; 3])
      as [-> ->].
    { change (output demo_model)
        with [Apply (Layer "knowledge_selector" (Some (VBool true)))
                    (Dropout (2 # 10) demo_merged)] in Houtput.
      injection Houtput as _ Hencoder _ Hshape. by split. }
    split.
    + exists (unwrap selector). exact Houtput.
    + destruct (Hvalues demo_backend demo_feed) as (_ & Hdefined & _).
      apply (Hdefined [Nd [Scalar 1; Scalar 2; Scalar 3]]
                      [Nd [Nd [Scalar 4; Scalar 5; Scalar 6];
                           Nd [Scalar 7; Scalar 8; Scalar 9]]]).
      * reflexivity.
      * reflexivity.
      * reflexivity.
      * repeat constructor.
      * repeat constructor.
      * apply demo_encoder_defined.
Defined.

(** The merged representation of the demo graph on a batch of one question
    with two background sentences: three positions, the question first. *)
Example demo_merge_value :
  @eval demo_backend demo_feed
    (Merge [Apply (Layer "sentence_encoder" None) (sentence_embedding hard_trainer);
            Apply (TimeDistributed (Layer "sentence_encoder" None)
                                   "background_encoder" None)
                  (background_embedding hard_trainer)]
           merge_mode [3; 3] "concat_sentence_with_background_0")
  = Some (Nd [Nd [Nd [Scalar 1; Scalar 2];
                  Nd [Scalar 4; Scalar 5];
                  Nd [Scalar 7; Scalar 8]]]).
Proof. reflexivity. Qed.

(** ** Small checks of the embedding *)

Example unwrap_twice_wrapped :
  unwrap (wrap 2 (Layer "sentence_encoder" None)) = Layer "sentence_encoder" None.
Proof. reflexivity. Qed.

Example zip_star_transposes :
  zip_star [[1; 2]; [3; 4]; [5; 6]] = [[1; 3; 5]; [2; 4; 6]].
Proof. reflexivity. Qed.

Example zip_star_stops_at_shortest :
  zip_star [[1; 2; 7]; [3]; [5; 6]] = [[1; 3; 5]].
Proof. reflexivity. Qed.

Example prepare_data_flat :
  (@_prepare_data
     {| pretrainer_params := unit; indexed_dataset := unit;
        Pretrainer_init := λ _, inr [];
        read_from_file := λ _ _ _, inr [];
        read_labeled_background_from_file := λ d _, inr d;
        to_indexed_dataset := λ _ _, inr tt;
        pad_instances := λ d _, d;
        as_training_data := λ _,
          ([Single (Nd [Scalar 1; Scalar 2]); Single (Nd [Scalar 3; Scalar 4])],
           [Scalar 1; Scalar 0]);
        _get_max_lengths := TrueFalseSolver_get_max_lengths;
        _get_sentence_encoder := mret (Layer "sentence_encoder" None);
        _get_knowledge_selector := demo_selector;
        fit := λ _ _, mret tt |}
     [] true true_false_trainer).2
  = inr (OneArray (Nd [Nd [Scalar 1; Scalar 2]; Nd [Scalar 3; Scalar 4]]),
         Nd [Scalar 1; Scalar 0]).
Proof. reflexivity. Qed.

Example init_on_demo :
  @__init__ demo demo_files hard_trainer = (soft_trainer, inr demo_pretrainer).
Proof. vm_compute. reflexivity. Qed.

Example interrupted_run :
  (@pretrain interrupted demo_files hard_trainer).2 = inl (IOError "interrupted") ∧
  hard_selection_of (@pretrain interrupted demo_files hard_trainer).1
    = Some (VBool false).
Proof. split; vm_compute; reflexivity. Qed.

Example true_false_set_max_lengths :
  max_sentence_length
    (TrueFalseSolver_set_max_lengths {[ "word_sequence_length" := 7 ]}
                                     true_false_trainer).1 = 7.
Proof. vm_compute. reflexivity. Qed.

(** * Further properties of the two modules *)

(** ** Construction and completion *)

Section Lifecycle.
Context {C : Collaborators}.

Lemma set_hard_selection_same v l :
  hard_selection l = Some v → set_hard_selection v l = l.
Proof. destruct l; cbn; by intros ->. Qed.

Lemma layers_already_read (layers : gmap Z layer) v :
  (∀ k l, layers !! k = Some l → hard_selection l = Some v) →
  set_hard_selection v <$> layers = layers.
Proof.
  intros Hread. apply map_eq. intros k. rewrite lookup_fmap.
  destruct (layers !! k) as [l|] eqn:Hl; cbn; [|done].
  by rewrite (set_hard_selection_same _ _ (Hread _ _ Hl)).
Qed.

(** X1: a construction that raises, for the wrong trainer class or inside
    the base-class constructor, has not touched the trainer; the exception
    is the configuration error in the first case and the base class's own
    exception in the second. *)
Theorem init_raises_without_effect params t t1 e :
  __init__ params t = (t1, inl e) →
  t1 = t ∧
  ((isinstance t "MemoryNetworkSolver" = false ∧
    e = ConfigurationError
          "The AttentionPretrainer needs a subclass of MemoryNetworkSolver") ∨
   (isinstance t "MemoryNetworkSolver" = true ∧ Pretrainer_init params = inl e)).
Proof.
  unfold __init__. run.
  destruct (isinstance t "MemoryNetworkSolver"); cbn.
  - destruct (Pretrainer_init params) as [e'|files]; cbn; [|discriminate].
    intros [= <- <-]. split; [done|]. by right.
  - intros [= <- <-]. split; [done|]. by left.
Qed.

(** X2: construction directly followed by the completion hook gives back
    the configuration map as it was, key for key, when the flag was set
    before; the whole trainer is back as it was when, in addition, every
    selector layer it holds already read that value (none, for a trainer
    whose model is not built yet). *)
Theorem init_then_on_finished_round_trip params t X t1 self :
  hard_selection_of t = Some X →
  __init__ params t = (t1, inr self) →
  knowledge_selector_params (on_finished self t1).1 = knowledge_selector_params t ∧
  (layers_read t X → on_finished self t1 = (t, inr tt)).
Proof.
  intros HX (_ & files & _ & -> & ->)%init_completed.
  rewrite HX. cbn [default]. rewrite on_finished_run. cbn.
  assert (<["hard_selection" := X]>
            (<["hard_selection" := VBool false]> (knowledge_selector_params t))
          = knowledge_selector_params t) as Hmap.
  { rewrite insert_insert_eq. by apply insert_id. }
  split; [exact Hmap|].
  intros Hlayers. f_equal.
  unfold set_knowledge_selector_layers, set_knowledge_selector_params. cbn.
  rewrite Hmap, (layers_already_read _ _ Hlayers). by destruct t.
Qed.

(** X3: two pretrainers constructed one after the other around the same
    trainer: the second saves [False], the value the first one forced.  The
    flag is back at its original value only when the first pretrainer
    finishes last; when the second finishes last the flag stays [False]. *)
Theorem nested_pretrainers_restore_in_reverse_order
    params1 params2 t X t1 p1 t2 p2 :
  hard_selection_of t = Some X →
  __init__ params1 t = (t1, inr p1) →
  __init__ params2 t1 = (t2, inr p2) →
  _old_hard_attention_setting p2 = VBool false ∧
  ∀ t3,
    hard_selection_of (on_finished p1 (on_finished p2 t3).1).1 = Some X ∧
    hard_selection_of (on_finished p2 (on_finished p1 t3).1).1 = Some (VBool false).
Proof.
  intros HX (_ & files1 & _ & -> & ->)%init_completed
            (_ & files2 & _ & -> & _)%init_completed.
  rewrite HX. cbn [default].
  assert (hard_selection_of
            (set_knowledge_selector_params <["hard_selection" := VBool false]> t)
          = Some (VBool false)) as ->
    by (unfold hard_selection_of; cbn; apply lookup_insert_eq).
  cbn [default]. split; [done|]. intros t3.
  by rewrite !on_finished_params.
Qed.

(** X4: pretrainers used one after the other, each constructed only after
    the one before has finished, leave the flag at its original value. *)
Theorem successive_pretrainers_restore params1 params2 t X t1 p1 t2 p2 t3 :
  hard_selection_of t = Some X →
  __init__ params1 t = (t1, inr p1) →
  __init__ params2 (on_finished p1 t3).1 = (t2, inr p2) →
  _old_hard_attention_setting p2 = X ∧
  ∀ t4, hard_selection_of (on_finished p2 t4).1 = Some X.
Proof.
  intros HX (_ & files1 & _ & -> & _)%init_completed
            (_ & files2 & _ & -> & _)%init_completed.
  rewrite HX. cbn [default].
  rewrite (on_finished_params (Pretrainer files1 X "AttentionPretrainer")).
  cbn. split; [done|]. intros t4.
  apply (on_finished_params (Pretrainer files2 X "AttentionPretrainer")).
Qed.

(** X5: the completion hook writes the flag and nothing else: every other
    key of the configuration map keeps its value, the trainer holds the same
    selector layers under the same keys, each the layer it was with its
    flag set, and all other attributes of the trainer are as before. *)
Theorem on_finished_writes_only_the_flag self t :
  (∀ key, key ≠ "hard_selection" →
     knowledge_selector_params (on_finished self t).1 !! key
       = knowledge_selector_params t !! key) ∧
  (∀ k, knowledge_selector_layers (on_finished self t).1 !! k
          = set_hard_selection (_old_hard_attention_setting self)
              <$> knowledge_selector_layers t !! k) ∧
  set_knowledge_selector_layers (λ _, knowledge_selector_layers t)
    (set_knowledge_selector_params (λ _, knowledge_selector_params t)
       (on_finished self t).1) = t.
Proof.
  rewrite on_finished_run. cbn. split; [|split].
  - intros key Hkey. by rewrite lookup_insert_ne.
  - intros k. by rewrite lookup_fmap.
  - by destruct t.
Qed.

(** X6: the hook sets the flag on the layer objects the trainer holds.  For
    a base layer this is the flag of the layer [_build_model] applies; for a
    layer held under [TimeDistributed] wrappers only the outermost wrapper
    is written, and the base layer that [_build_model] applies after
    unwrapping keeps the flag it had. *)
Theorem on_finished_reaches_only_the_held_layer self t k l :
  knowledge_selector_layers t !! k = Some l →
  ∃ l', knowledge_selector_layers (on_finished self t).1 !! k = Some l' ∧
    hard_selection l' = Some (_old_hard_attention_setting self) ∧
    (is_time_distributed l = false →
       hard_selection (unwrap l') = Some (_old_hard_attention_setting self)) ∧
    (is_time_distributed l = true →
       unwrap l' = unwrap l ∧
       hard_selection (unwrap l') = hard_selection (unwrap l)).
Proof.
  intros Hl. exists (set_hard_selection (_old_hard_attention_setting self) l).
  rewrite on_finished_run. cbn. rewrite lookup_fmap, Hl. cbn.
  split; [done|]. split; [apply hard_selection_set|].
  destruct l as [n h|inner n h]; cbn; split; try done.
Qed.

End Lifecycle.

(** ** Loading and preparing data *)

Section Data.
Context {C : Collaborators}.

(** X7: [_load_dataset_from_files] never writes the trainer.  Without any
    file it raises [IndexError] before reading; with one file it raises the
    reader's exception if reading that file fails and [IndexError]
    otherwise; with two or more files only the first two are used, and the
    result is what the two readers give. *)
Theorem load_dataset_needs_two_files files t :
  (_load_dataset_from_files files t).1 = t ∧
  match files with
  | [] => (_load_dataset_from_files files t).2 = inl IndexError
  | [f0] =>
      (_load_dataset_from_files files t).2 =
        match read_from_file f0 (instance_type t) (tokenizer t) with
        | inl e => inl e
        | inr _ => inl IndexError
        end
  | f0 :: f1 :: _ =>
      (_load_dataset_from_files files t).2 =
        match read_from_file f0 (instance_type t) (tokenizer t) with
        | inl e => inl e
        | inr dataset => read_labeled_background_from_file dataset f1
        end
  end.
Proof.
  split; [apply load_dataset_frame|].
  unfold _load_dataset_from_files. run.
  destruct files as [|f0 [|f1 others]]; cbn; [done| |];
    by destruct (read_from_file f0 _ _).
Qed.

(** X8: [_prepare_data] never writes the trainer; an exception raised while
    indexing the dataset is passed on, and a dataset that yields no instance
    input makes it raise [IndexError], whatever the labels are. *)
Theorem prepare_data_fails_cleanly dataset for_train t :
  (_prepare_data dataset for_train t).1 = t ∧
  (∀ e, to_indexed_dataset dataset (data_indexer t) = inl e →
        (_prepare_data dataset for_train t).2 = inl e) ∧
  (∀ indexed labels,
     to_indexed_dataset dataset (data_indexer t) = inr indexed →
     as_training_data (pad_instances indexed (_get_max_lengths t)) = ([], labels) →
     (_prepare_data dataset for_train t).2 = inl IndexError).
Proof.
  split; [apply prepare_data_frame|]. split.
  - intros e He. unfold _prepare_data. run. by rewrite He.
  - intros indexed labels Hindexed Hdata.
    by rewrite (prepare_data_run _ _ _ _ _ _ Hindexed Hdata).
Qed.

Lemma min_with_empty {A} (its : list (list A)) n it :
  it ∈ its → length it = 0%nat →
  foldr (λ x m, Nat.min (length x) m) n its = 0%nat.
Proof.
  induction its as [|x its IH]; intros Hin Hit; [by apply elem_of_nil in Hin|].
  cbn. apply elem_of_cons in Hin as [<-|Hin]; [by rewrite Hit|].
  rewrite (IH Hin Hit). lia.
Qed.

Lemma min_of_tails {A} (its : list (list A)) n :
  Forall (λ it, length it ≠ 0%nat) its →
  foldr (λ x m, Nat.min (length x) m) (S n) its
    = S (foldr (λ x m, Nat.min (length x) m) n (tail <$> its)).
Proof.
  induction 1 as [|it its Hit _ IH]; [done|].
  cbn. rewrite IH. destruct it; cbn in *; [done|lia].
Qed.

Lemma min_below_start {A} (its : list (list A)) n :
  (foldr (λ x m, Nat.min (length x) m) n its ≤ n)%nat.
Proof. induction its; cbn; lia. Qed.

Lemma zip_rows_fewest {A} n (its : list (list A)) :
  length (zip_rows n its) = foldr (λ x m, Nat.min (length x) m) n its.
Proof.
  revert its. induction n as [|n IH]; intros its; cbn.
  - pose proof (min_below_start its 0). lia.
  - destruct (mapM head its) as [row|] eqn:Hrow.
    + cbn. rewrite IH. symmetry. apply min_of_tails.
      apply mapM_Some_1 in Hrow.
      apply Forall_forall. intros it Hit.
      apply list_elem_of_lookup in Hit as [i Hi].
      destruct (Forall2_lookup_l _ _ _ _ _ Hrow Hi) as (x & _ & Hhead).
      by destruct it.
    + apply mapM_None_1, Exists_exists in Hrow as (it & Hit & Hhead).
      symmetry. apply (min_with_empty _ _ it Hit). by destruct it.
Qed.

Lemma zip_star_fewest {A} (its : list (list A)) :
  length (zip_star its) = min_length its.
Proof.
  destruct its as [|it others]; [done|].
  unfold zip_star. rewrite zip_rows_fewest. cbn.
  pose proof (min_below_start others (length it)). lia.
Qed.

(** X9: when every instance input is a tuple, [_prepare_data] returns as
    many arrays as the shortest tuple has fields: array [j] holds field [j]
    of every instance, in instance order, and the fields a longer tuple has
    beyond that are left out without an exception. *)
Theorem prepare_data_truncates_to_fewest_fields
    dataset for_train t indexed inputs labels first others :
  to_indexed_dataset dataset (data_indexer t) = inr indexed →
  as_training_data (pad_instances indexed (_get_max_lengths t)) = (inputs, labels) →
  inputs = first :: others →
  Forall (λ x, is_tuple x = true) inputs →
  ∃ columns,
    _prepare_data dataset for_train t =
      (t, inr (FieldArrays (Nd <$> columns), Nd labels)) ∧
    length columns = min_length (tuple_fields <$> inputs) ∧
    ∀ j column, columns !! j = Some column →
      length column = length inputs ∧
      ∀ i x, inputs !! i = Some x →
        is_Some (column !! i) ∧ column !! i = tuple_fields x !! j.
Proof.
  intros Hindexed Hdata -> Htuples.
  rewrite (prepare_data_run _ _ _ _ _ _ Hindexed Hdata).
  cbn [getitem lookup list_lookup].
  pose proof (Forall_inv Htuples) as ->.
  rewrite (iter_inputs_tuples _ Htuples).
  exists (zip_star (tuple_fields <$> first :: others)).
  split; [done|]. split; [apply zip_star_fewest|].
  intros j column Hcolumn.
  change (zip_rows (length (tuple_fields first))
                   (tuple_fields <$> first :: others) !! j = Some column)
    in Hcolumn.
  apply zip_rows_column in Hcolumn. split.
  - apply Forall2_length in Hcolumn. by rewrite <- Hcolumn, length_fmap.
  - intros i x Hx.
    destruct (Forall2_lookup_l _ _ _ i (tuple_fields x) Hcolumn)
      as (y & Hy & Hfield).
    { by rewrite list_lookup_fmap, Hx. }
    rewrite Hy, Hfield. eauto.
Qed.

(** X10: [fit_data_indexer] is all or nothing: when it raises, the
    exception is the one of loading the dataset and the trainer, its word
    dictionary included, is untouched; when it returns, the word dictionary
    is the only attribute of the trainer that may have changed. *)
Theorem fit_data_indexer_all_or_nothing self t t' :
  (∀ e, fit_data_indexer self t = (t', inl e) →
        t' = t ∧ (_load_dataset_from_files (train_files self) t).2 = inl e) ∧
  (fit_data_indexer self t = (t', inr tt) →
     set_data_indexer (λ _, data_indexer t) t' = t).
Proof.
  unfold fit_data_indexer. run.
  pose proof (load_dataset_frame (train_files self) t) as Hframe.
  destruct (_load_dataset_from_files (train_files self) t) as [t0 [e0|dataset]];
    cbn in *; subst t0; split.
  - by intros e [= <- <-].
  - discriminate.
  - discriminate.
  - intros [= <-]. by destruct t.
Qed.

End Data.

(** ** Building the graphs *)

Section Models.
Context {C : Collaborators}.

(** X11: [_build_model] asks the trainer for the sentence encoder first and
    for the knowledge selector second.  An exception of either accessor is
    passed on, the selector not being asked for once the encoder accessor
    has raised; otherwise a model is returned.  In every case the trainer
    is left exactly as the accessors left it. *)
Theorem build_model_passes_on_accessor_errors t :
  match _get_sentence_encoder t with
  | (t1, inl e) => _build_model t = (t1, inl e)
  | (t1, inr _) =>
      match _get_knowledge_selector 0 t1 with
      | (t2, inl e) => _build_model t = (t2, inl e)
      | (t2, inr _) => ∃ m, _build_model t = (t2, inr m)
      end
  end.
Proof.
  unfold _build_model, _get_embedded_sentence_input. run.
  destruct (_get_sentence_encoder t) as [t1 [e|encoder]]; cbn; [done|].
  destruct (_get_knowledge_selector 0 t1) as [t2 [e|selector]]; cbn; [done|].
  eauto.
Qed.

(** What a call of [TrueFalseSolver._build_model] that returns has built. *)
Lemma true_false_model_completed t t' m :
  TrueFalseSolver_build_model t = (t', inr m) →
  ∃ encoder,
    _get_sentence_encoder t = (t', inr encoder) ∧
    m = Model
          [Input [max_sentence_length t] "int32" "sentence_input"]
          [Dense 2 "softmax" "softmax"
             (Dense (embedding_size t' ÷ 2) "relu" "projector"
                (Dropout (2 # 10)
                   (Apply encoder
                      (Embedding
                         (Input [max_sentence_length t] "int32"
                                "sentence_input")))))].
Proof.
  unfold TrueFalseSolver_build_model. run.
  destruct (_get_sentence_encoder t) as [t1 [e|encoder]] eqn:Henc;
    cbn; [discriminate|].
  intros [= <- <-]. by exists encoder.
Qed.

(** X12: the graph of [TrueFalseSolver._build_model] has one input and one
    output; the sentence encoder is applied as the trainer returns it, with
    any [TimeDistributed] wrapper it carries; the projection layer has half
    the embedding size as its width, rounded down, so an embedding size of 0
    or 1 gives a layer of width 0.  (The width goes through a float division
    in the source, which is exact below [2^53].)  An exception of the
    encoder accessor is passed on. *)
Theorem true_false_model_projects_to_half t :
  match _get_sentence_encoder t with
  | (t1, inl e) => TrueFalseSolver_build_model t = (t1, inl e)
  | (t1, inr encoder) =>
      ∃ units sentence_input,
        TrueFalseSolver_build_model t =
          (t1, inr (Model [sentence_input]
                      [Dense 2 "softmax" "softmax"
                         (Dense units "relu" "projector"
                            (Dropout (2 # 10)
                               (Apply encoder (Embedding sentence_input))))])) ∧
        sentence_input = Input [max_sentence_length t] "int32" "sentence_input" ∧
        (0 ≤ embedding_size t1 < 2 ^ 53 →
           2 * units ≤ embedding_size t1 < 2 * units + 2 ∧
           (embedding_size t1 < 2 → units = 0))
  end.
Proof.
  unfold TrueFalseSolver_build_model. run.
  destruct (_get_sentence_encoder t) as [t1 [e|encoder]]; cbn; [done|].
  eexists _, _. split; [reflexivity|]. split; [reflexivity|].
  intros [Hpos _].
  pose proof (Z.quot_rem' (embedding_size t1) 2) as Hdiv.
  pose proof (Z.rem_bound_pos (embedding_size t1) 2 Hpos ltac:(lia)) as Hrem.
  split; [lia|]. intros Hsmall. lia.
Qed.

(** X13: the length dictionary of a [TrueFalseSolver] round-trips: setting
    the lengths just read changes nothing, and reading after setting gives
    back the entry that was set.  Setting from a dictionary without the key
    [word_sequence_length] raises [KeyError] and leaves the trainer as it
    was; entries under other keys are ignored. *)
Theorem true_false_max_lengths_round_trip t :
  TrueFalseSolver_set_max_lengths (TrueFalseSolver_get_max_lengths t) t
    = (t, inr tt) ∧
  (∀ max_lengths n, max_lengths !! "word_sequence_length" = Some n →
     TrueFalseSolver_get_max_lengths
       (TrueFalseSolver_set_max_lengths max_lengths t).1
       = {[ "word_sequence_length" := n ]}) ∧
  (∀ max_lengths, max_lengths !! "word_sequence_length" = None →
     TrueFalseSolver_set_max_lengths max_lengths t
       = (t, inl (KeyError "word_sequence_length"))) ∧
  (∀ max_lengths key n, key ≠ "word_sequence_length" →
     TrueFalseSolver_set_max_lengths (<[key := n]> max_lengths) t
       = TrueFalseSolver_set_max_lengths max_lengths t).
Proof.
  unfold TrueFalseSolver_set_max_lengths, TrueFalseSolver_get_max_lengths.
  split; [|split; [|split]].
  - rewrite lookup_singleton_eq. run. by destruct t.
  - intros max_lengths n ->. by run.
  - by intros max_lengths ->.
  - intros max_lengths key n Hkey. by rewrite lookup_insert_ne.
Qed.

End Models.

(** ** What the graphs compute *)

Section Values.
Context {C : Collaborators} {B : Backend}.

Lemma eval_input_value feed shape dtype name v :
  eval feed (Input shape dtype name) = Some v →
  ∃ samples, feed name = Some (Nd samples) ∧ v = Nd samples ∧
    Forall (λ s, has_shape shape s = true) samples.
Proof.
  cbn [eval]. destruct (feed name) as [x|]; cbn; [|discriminate].
  destruct x as [?|samples]; cbn; [discriminate|].
  destruct (forallb _ samples) eqn:Hshape; [|discriminate].
  intros [= <-]. exists samples. split; [done|]. split; [done|].
  apply Forall_forall. intros s Hs. rewrite forallb_forall in Hshape.
  by apply Hshape, list_elem_of_In.
Qed.

Lemma eval_embedding_value feed x v :
  eval feed (Embedding x) = Some v →
  ∃ samples, eval feed x = Some (Nd samples) ∧ v = Nd (embed_all <$> samples).
Proof.
  cbn [eval]. destruct (eval feed x) as [[?|samples]|]; cbn; try discriminate.
  intros [= <-]. by exists samples.
Qed.

Lemma eval_dropout_value feed rate x v :
  eval feed (Dropout rate x) = Some v →
  ∃ samples, eval feed x = Some (Nd samples) ∧ v = Nd (dropout rate <$> samples).
Proof.
  cbn [eval]. destruct (eval feed x) as [[?|samples]|]; cbn; try discriminate.
  intros [= <-]. by exists samples.
Qed.

Lemma eval_apply_value feed l x v :
  eval feed (Apply l x) = Some v →
  ∃ samples outs, eval feed x = Some (Nd samples) ∧ v = Nd outs ∧
    length outs = length samples.
Proof.
  cbn [eval]. destruct (eval feed x) as [[?|samples]|]; cbn; try discriminate.
  destruct (mapM (call l) samples) as [outs|] eqn:Houts; cbn; [|discriminate].
  intros [= <-]. exists samples, outs. split; [done|]. split; [done|].
  symmetry. by eapply Forall2_length, mapM_Some_1.
Qed.

Lemma eval_dense_value feed units activation name x v :
  eval feed (Dense units activation name x) = Some v →
  ∃ samples outs, eval feed x = Some (Nd samples) ∧ v = Nd outs ∧
    length outs = length samples.
Proof.
  cbn [eval]. destruct (eval feed x) as [[?|samples]|]; cbn; try discriminate.
  destruct (mapM (dense units activation name) samples) as [outs|] eqn:Houts;
    cbn; [|discriminate].
  intros [= <-]. exists samples, outs. split; [done|]. split; [done|].
  symmetry. by eapply Forall2_length, mapM_Some_1.
Qed.

(** X14: the attention sub-graph has a value only on a feed that gives as
    many background sets as questions, every question with
    [max_sentence_length] word indices and every background set with
    [max_knowledge_length] sentences of that length; its value then holds
    one attention output per question. *)
Theorem attention_graph_wants_aligned_batches t t' m out feed v :
  _build_model t = (t', inr m) →
  output m !! 0%nat = Some out →
  eval feed out = Some v →
  ∃ questions backgrounds weights,
    feed "sentence_input" = Some (Nd questions) ∧
    feed "background_input" = Some (Nd backgrounds) ∧
    v = Nd weights ∧
    length weights = length questions ∧
    length backgrounds = length questions ∧
    Forall (λ q, has_shape [max_sentence_length t] q = true) questions ∧
    Forall (λ b, has_shape [max_knowledge_length t; max_sentence_length t] b = true)
           backgrounds.
Proof.
  intros (t1 & encoder & selector & _ & _ & ->)%build_model_completed [= <-].
  intros (dropped & weights & Hdropped & -> & Hweights)%eval_apply_value.
  apply eval_dropout_value in Hdropped as (merged & Hmerged & [= ->]).
  rewrite eval_merge_two in Hmerged.
  destruct (eval feed (Apply (unwrap encoder) (sentence_embedding t)))
    as [x|] eqn:Hx; cbn [mbind option_bind] in Hmerged; [|discriminate].
  destruct (eval feed (Apply (TimeDistributed (unwrap encoder)
                                "background_encoder" None) (background_embedding t)))
    as [y|] eqn:Hy; cbn [mbind option_bind] in Hmerged; [|discriminate].
  apply merge_mode_question_first in Hmerged as (qs & bgs & -> & -> & Hlen & [= ->]).
  apply eval_apply_value in Hx as (embedded_q & qs' & Hq & [= <-] & Hqs).
  apply eval_embedding_value in Hq as (questions & Hq & [= ->]).
  apply eval_input_value in Hq as (questions' & Hfeed_q & [= <-] & Hshape_q).
  apply eval_apply_value in Hy as (embedded_b & bgs' & Hb & [= <-] & Hbgs).
  apply eval_embedding_value in Hb as (backgrounds & Hb & [= ->]).
  apply eval_input_value in Hb as (backgrounds' & Hfeed_b & [= <-] & Hshape_b).
  exists questions, backgrounds, weights.
  rewrite !length_fmap in *. rewrite length_zip_with_l_eq in Hweights by done.
  repeat split; try done; lia.
Qed.

(** X15: the graph of [TrueFalseSolver._build_model] has a value only on a
    feed whose sentences all have [max_sentence_length] word indices, and
    its value then holds one output per sentence. *)
Theorem true_false_graph_maps_each_sentence t t' m out feed v :
  TrueFalseSolver_build_model t = (t', inr m) →
  output m !! 0%nat = Some out →
  eval feed out = Some v →
  ∃ sentences probabilities,
    feed "sentence_input" = Some (Nd sentences) ∧
    v = Nd probabilities ∧
    length probabilities = length sentences ∧
    Forall (λ s, has_shape [max_sentence_length t] s = true) sentences.
Proof.
  intros (encoder & _ & ->)%true_false_model_completed [= <-].
  intros (projected & probabilities & Hprojected & -> & Hprobabilities)
    %eval_dense_value.
  apply eval_dense_value in Hprojected
    as (dropped & projected' & Hdropped & [= <-] & Hprojected).
  apply eval_dropout_value in Hdropped as (encoded & Hencoded & [= ->]).
  apply eval_apply_value in Hencoded
    as (embedded & encoded' & Hembedded & [= <-] & Hencoded).
  apply eval_embedding_value in Hembedded as (sentences & Hinput & [= ->]).
  apply eval_input_value in Hinput as (sentences' & Hfeed & [= <-] & Hshape).
  exists sentences, probabilities.
  rewrite !length_fmap in *. repeat split; try done; lia.
Qed.

End Values.

(** ** The further properties on concrete trainers *)

(** X1 on a memory network whose base-class constructor raises. *)
Lemma init_raises_without_effect_witness :
  (@__init__ failing_base_init demo_files hard_trainer).1 = hard_trainer ∧
  (@__init__ failing_base_init demo_files hard_trainer).2
    = inl (KeyError "train_files").
Proof.
  destruct (@init_raises_without_effect failing_base_init demo_files hard_trainer
              (@__init__ failing_base_init demo_files hard_trainer).1
              (KeyError "train_files")) as [Hsame _].
  - vm_compute. reflexivity.
  - split; [exact Hsame|]. vm_compute. reflexivity.
Defined.

(** X2 on the demo trainer, which holds no selector layer yet. *)
Lemma init_then_on_finished_round_trip_witness :
  on_finished demo_pretrainer soft_trainer = (hard_trainer, inr tt).
Proof.
  apply (@init_then_on_finished_round_trip demo demo_files hard_trainer
           (VBool true) soft_trainer demo_pretrainer).
  - vm_compute. reflexivity.
  - vm_compute. reflexivity.
  - intros k l Hl. vm_compute in Hl. discriminate.
Defined.

(** X3 on the demo trainer. *)
Lemma nested_pretrainers_restore_in_reverse_order_witness :
  hard_selection_of
    (on_finished (Pretrainer demo_files (VBool false) "AttentionPretrainer")
                 (on_finished demo_pretrainer soft_trainer).1).1
    = Some (VBool false) ∧
  hard_selection_of
    (on_finished demo_pretrainer
                 (on_finished (Pretrainer demo_files (VBool false)
                                          "AttentionPretrainer") soft_trainer).1).1
    = Some (VBool true).
Proof.
  destruct (@nested_pretrainers_restore_in_reverse_order demo demo_files demo_files
              hard_trainer (VBool true) soft_trainer demo_pretrainer soft_trainer
              (Pretrainer demo_files (VBool false) "AttentionPretrainer"))
    as [_ Horder].
  - vm_compute. reflexivity.
  - vm_compute. reflexivity.
  - vm_compute. reflexivity.
  - destruct (Horder soft_trainer) as [Hfirst_last Hsecond_last]. by split.
Defined.

(** X4 on the demo trainer. *)
Lemma successive_pretrainers_restore_witness :
  hard_selection_of (on_finished demo_pretrainer built_trainer).1
    = Some (VBool true).
Proof.
  destruct (@successive_pretrainers_restore demo demo_files demo_files
              hard_trainer (VBool true) soft_trainer demo_pretrainer
              soft_trainer demo_pretrainer soft_trainer) as [_ Hrestored].
  - vm_compute. reflexivity.
  - vm_compute. reflexivity.
  - vm_compute. reflexivity.
  - apply Hrestored.
Defined.

(** X6 on the selector the demo accessor creates under one wrapper: the
    wrapper reads [True] after the hook, the selector under it still
    [False]. *)
Lemma on_finished_reaches_only_the_held_layer_witness :
  ∃ l', knowledge_selector_layers
          (on_finished demo_pretrainer soft_trainer_with_layer).1 !! 0 = Some l' ∧
    hard_selection l' = Some (VBool true) ∧
    hard_selection (unwrap l') = Some (VBool false).
Proof.
  destruct (@on_finished_reaches_only_the_held_layer demo_pretrainer
              soft_trainer_with_layer 0
              (TimeDistributed (Layer "knowledge_selector" (Some (VBool false)))
                               "knowledge_selector_0" None))
    as (l' & Hl' & Hflag & _ & Hinner).
  - vm_compute. reflexivity.
  - exists l'. split; [exact Hl'|]. split; [exact Hflag|].
    destruct (Hinner eq_refl) as [_ ->]. reflexivity.
Defined.

(** X9 on a tuple of three fields followed by a tuple of two: two arrays. *)
Lemma prepare_data_truncates_to_fewest_fields_witness :
  ∃ columns,
    @_prepare_data ragged demo_dataset true hard_trainer =
      (hard_trainer, inr (FieldArrays (Nd <$> columns), Nd ragged_labels)) ∧
    length columns = 2%nat.
Proof.
  destruct (@prepare_data_truncates_to_fewest_fields ragged demo_dataset true
              hard_trainer
              (demo_indexed (data_indexer hard_trainer) <$> demo_dataset)
              ragged_inputs ragged_labels
              (Tuple [Nd [Scalar 1]; Nd [Scalar 2]; Nd [Scalar 3]])
              [Tuple [Nd [Scalar 4]; Nd [Scalar 5]]])
    as (columns & Hrun & Hcount & _).
  - reflexivity.
  - reflexivity.
  - reflexivity.
  - repeat constructor.
  - exists columns. split; [exact Hrun|]. exact Hcount.
Defined.

(** X14 on the demo graph, fed one question and its two background
    sentences. *)
Lemma attention_graph_wants_aligned_batches_witness :
  ∃ questions backgrounds (weights : list (ndarray Z)),
    demo_feed "sentence_input" = Some (Nd questions) ∧
    demo_feed "background_input" = Some (Nd backgrounds) ∧
    length weights = length questions ∧
    length backgrounds = length questions.
Proof.
  destruct (@attention_graph_wants_aligned_batches demo demo_backend hard_trainer
              (@_build_model demo hard_trainer).1 demo_model
              (first_output demo_model) demo_feed
              (Nd [Nd [Scalar 1; Scalar 1; Scalar 1]]))
    as (questions & backgrounds & weights & Hq & Hb & _ & Hw & Hlen & _).
  - vm_compute. reflexivity.
  - vm_compute. reflexivity.
  - vm_compute. reflexivity.
  - by exists questions, backgrounds, weights.
Defined.

(** X15 on the demo solver, fed one sentence. *)
Lemma true_false_graph_maps_each_sentence_witness :
  ∃ sentences (probabilities : list (ndarray Z)),
    demo_feed "sentence_input" = Some (Nd sentences) ∧
    length probabilities = length sentences.
Proof.
  destruct (@true_false_graph_maps_each_sentence plain_encoder demo_backend
              true_false_trainer
              (@TrueFalseSolver_build_model plain_encoder true_false_trainer).1
              true_false_model (first_output true_false_model) demo_feed
              (Nd [Nd [Scalar 1; Scalar 2]]))
    as (sentences & probabilities & Hfeed & _ & Hlen & _).
  - vm_compute. reflexivity.
  - vm_compute. reflexivity.
  - vm_compute. reflexivity.
  - by exists sentences, probabilities.
Defined.

(** [fit_data_indexer] with a single training file raises and leaves the
    word dictionary alone. *)
Example fit_data_indexer_one_file :
  @fit_data_indexer demo (Pretrainer ["train.tsv"] (VBool true) "AttentionPretrainer")
                    hard_trainer
  = (hard_trainer, inl IndexError).
Proof. vm_compute. reflexivity. Qed.

Example zip_star_no_fields :
  zip_star [[1; 2]; []; [5; 6]] = [].
Proof. reflexivity. Qed.
